(** * AI Benchmark Explorer: the filter, pagination and selection core of app.py

    The development embeds the data-handling part of [src/app.py]:
    the derived count columns of [load_data], the filtering logic of
    [create_filter_panel], the page arithmetic and the session-state
    updates of [main], and the lookup of the selected row.

    Modelling conventions.
    - A DataFrame is an ordered list of rows; boolean-mask indexing is
      [List.filter], positional slicing [iloc[a:b]] is [iloc_slice].
    - A cell that pandas reads as NaN is [None].
    - Python [str] values are Rocq strings over ASCII characters.
    - Python and pandas calls that can raise are modelled in the
      [outcome] type, which names the exception.
    - Widget values (select boxes, slider, text input, button clicks) are
      inputs; [st.session_state] is an explicit record threaded through a
      run of the script.  Layout and drawing calls of Streamlit and Plotly
      are not modelled, except [st.columns] at line 377, whose argument
      depends on the data and which raises when it is not positive. *)

From Stdlib Require Import ZArith String Ascii List Bool Lia DecimalString Sorted.
From stdpp Require Import base list.
Import ListNotations.

Local Open Scope string_scope.

(** ** Exceptions and outcomes *)

Inductive exn : Type :=
| ReError            (* re.error: the search pattern does not compile *)
| IndexError         (* positional indexer out of bounds *)
| ValueError         (* int(nan) *)
| ZeroDivisionError
| StreamlitAPIException.  (* st.columns called with no column *)

(** [Outside] marks a run that depends on regular-expression syntax which
    this development does not interpret; nothing is stated about it. *)
Inductive outcome (A : Type) : Type :=
| Ok (a : A)
| Raise (e : exn)
| Outside.

Arguments Ok {A} a.
Arguments Raise {A} e.
Arguments Outside {A}.

Definition bind {A B : Type} (m : outcome A) (k : A -> outcome B) : outcome B :=
  match m with
  | Ok a => k a
  | Raise e => Raise e
  | Outside => Outside
  end.

Notation "'let*' x ':=' m 'in' k" := (bind m (fun x => k))
  (at level 10, x name, m at level 100, k at level 200).

(** ** Python string operations used by the program *)

Module PyStr.

(** Characters removed by [str.strip()] with no argument, within ASCII:
    tab, line feed, vertical tab, form feed, carriage return, the four
    separators 0x1c-0x1f, and space. *)
Definition is_space (c : ascii) : bool :=
  let n := nat_of_ascii c in
  (((9 <=? n) && (n <=? 13)) || ((28 <=? n) && (n <=? 32)))%nat.

Fixpoint lstrip (s : string) : string :=
  match s with
  | EmptyString => EmptyString
  | String c r => if is_space c then lstrip r else s
  end.

Fixpoint rstrip (s : string) : string :=
  match s with
  | EmptyString => EmptyString
  | String c r =>
      match rstrip r with
      | EmptyString => if is_space c then EmptyString else String c EmptyString
      | r' => String c r'
      end
  end.

Definition strip (s : string) : string := rstrip (lstrip s).

(** Truth value of a string: non-empty. *)
Definition truthy (s : string) : bool :=
  match s with
  | EmptyString => false
  | String _ _ => true
  end.

Definition is_comma (c : ascii) : bool := Ascii.eqb c ","%char.

(** [s.split(',')]: one more token than there are commas; the empty
    string splits into one empty token. *)
Fixpoint split_comma (s : string) : list string :=
  match s with
  | EmptyString => [EmptyString]
  | String c r =>
      if is_comma c then EmptyString :: split_comma r
      else match split_comma r with
           | tok :: toks => String c tok :: toks
           | [] => [String c EmptyString]
           end
  end.

(** [x in xs] for a list of strings. *)
Definition mem (x : string) (xs : list string) : bool :=
  existsb (String.eqb x) xs.

Definition lower_char (c : ascii) : ascii :=
  let n := nat_of_ascii c in
  if ((65 <=? n) && (n <=? 90))%nat then ascii_of_nat (n + 32) else c.

Fixpoint lower (s : string) : string :=
  match s with
  | EmptyString => EmptyString
  | String c r => String (lower_char c) (lower r)
  end.

End PyStr.

(** ** The fragment of Python's [re] that the search box is studied on *)

Module PyRe.

(** The characters with a special meaning in a pattern. *)
Definition special_chars : list ascii :=
  list_ascii_of_string ".^$*+?{}[]\|()".

Definition is_special (c : ascii) : bool :=
  existsb (Ascii.eqb c) special_chars.

Inductive atom : Type :=
| Lit (c : ascii)     (* an ordinary character *)
| AnyChar.            (* [.]: any character but a line feed *)

Inductive compiled : Type :=
| Pattern (atoms : list atom)
| Rejected            (* re.compile raises re.error *)
| Unsupported.        (* syntax outside the fragment *)

(** [re.compile] on patterns made of ordinary characters, [.] and [(].
    With no [)] , [\] or [[] available, every [(] opens a group that is
    never closed, and the pattern is rejected.  Any other special
    character leaves the fragment. *)
Fixpoint compile (p : string) : compiled :=
  match p with
  | EmptyString => Pattern []
  | String c r =>
      if Ascii.eqb c "."%char then
        match compile r with
        | Pattern a => Pattern (AnyChar :: a)
        | other => other
        end
      else if Ascii.eqb c "("%char then
        match compile r with
        | Unsupported => Unsupported
        | _ => Rejected
        end
      else if is_special c then Unsupported
      else
        match compile r with
        | Pattern a => Pattern (Lit c :: a)
        | other => other
        end
  end.

(** One atom against one character, under [re.IGNORECASE]. *)
Definition atom_matches (a : atom) (c : ascii) : bool :=
  match a with
  | Lit l => Ascii.eqb (PyStr.lower_char l) (PyStr.lower_char c)
  | AnyChar => negb (Ascii.eqb c "010"%char)
  end.

(** The atoms match a prefix of [s]. *)
Fixpoint match_here (atoms : list atom) (s : string) : bool :=
  match atoms, s with
  | [], _ => true
  | _ :: _, EmptyString => false
  | a :: rest, String c r => atom_matches a c && match_here rest r
  end.

(** [pattern.search(s) is not None]: a match starting at some offset. *)
Fixpoint search (atoms : list atom) (s : string) : bool :=
  match_here atoms s ||
  match s with
  | EmptyString => false
  | String _ r => search atoms r
  end.

End PyRe.

(** ** The data model *)

(** One line of [data/datasets.csv] as [pd.read_csv] delivers it. *)
Record CsvRow : Type := {
  csv_dataset_id : string;
  csv_task : string;
  csv_area : option string;
  csv_modalities : option string;
  csv_associated_tasks : option string;
  csv_benchmark_urls : option string;
  csv_year_published : option Z;
  csv_license : option string;
  csv_languages : option string;
  csv_description : option string
}.

(** A row of the DataFrame that [load_data] returns: the CSV columns and
    the two derived count columns. *)
Record DatasetRecord : Type := {
  dataset_id : string;
  task : string;
  area : option string;
  modalities : option string;
  associated_tasks : option string;
  benchmark_urls : option string;
  year_published : option Z;
  license : option string;
  languages : option string;
  description : option string;
  benchmark_cnt : nat;
  associated_task_cnt : nat
}.

Definition table : Type := list DatasetRecord.

(** ** [load_data] *)

(** The lambda of lines 117 and 120:
    [len([t for t in str(x).split(',') if t.strip()]) if pd.notna(x) else 0]. *)
Definition token_count (x : option string) : nat :=
  match x with
  | Some s =>
      length (List.filter (fun t => PyStr.truthy (PyStr.strip t))
                          (PyStr.split_comma s))
  | None => 0%nat
  end.

Definition derive (r : CsvRow) : DatasetRecord :=
  {| dataset_id := csv_dataset_id r;
     task := csv_task r;
     area := csv_area r;
     modalities := csv_modalities r;
     associated_tasks := csv_associated_tasks r;
     benchmark_urls := csv_benchmark_urls r;
     year_published := csv_year_published r;
     license := csv_license r;
     languages := csv_languages r;
     description := csv_description r;
     benchmark_cnt := token_count (csv_benchmark_urls r);
     associated_task_cnt := token_count (csv_associated_tasks r) |}.

(** [source] is [None] when reading the file raises; the [except] branch
    then returns an empty DataFrame. *)
Definition load_data (source : option (list CsvRow)) : table :=
  match source with
  | Some rows => map derive rows
  | None => []
  end.

(** The trimmed, non-blank tokens of a delimited field, as lines 146, 225
    and 238 compute them: [[m.strip() for m in s.split(',') if m.strip()]]. *)
Definition parse_tokens (s : string) : list string :=
  map PyStr.strip
      (List.filter (fun t => PyStr.truthy (PyStr.strip t)) (PyStr.split_comma s)).

(** ** [create_filter_panel] *)

(** The values that lines 137-156 bind from the sidebar widgets:
    [selected_task] (the option text up to its count suffix),
    [selected_area], [selected_modalities], [year_range] and
    [search_term]. *)
Record FilterCriteria : Type := {
  selected_task : string;
  selected_area : string;
  selected_modalities : list string;
  year_range : Z * Z;
  search_term : string
}.

(** [years = df['year_published'].dropna().astype(int)] *)
Definition years (df : table) : list Z :=
  flat_map (fun r => match year_published r with
                     | Some y => [y]
                     | None => []
                     end) df.

(** [int(years.min()), int(years.max())]; with no year at all the minimum
    is NaN and [int] raises. *)
Definition year_bounds (df : table) : outcome (Z * Z) :=
  match years df with
  | [] => Raise ValueError
  | y :: ys => Ok (fold_left Z.min ys y, fold_left Z.max ys y)
  end.

(** The widget values before the user touches anything. *)
Definition default_criteria (df : table) : outcome FilterCriteria :=
  let* b := year_bounds df in
  Ok {| selected_task := "All";
        selected_area := "All";
        selected_modalities := [];
        year_range := b;
        search_term := "" |}.

(** [filtered_df['task'] == selected_task] *)
Definition task_mask (sel : string) (r : DatasetRecord) : bool :=
  String.eqb (task r) sel.

(** [filtered_df['area'] == selected_area]; NaN compares unequal. *)
Definition area_mask (sel : string) (r : DatasetRecord) : bool :=
  match area r with
  | Some a => String.eqb a sel
  | None => false
  end.

(** The lambda of line 169. *)
Definition modality_mask (sels : list string) (r : DatasetRecord) : bool :=
  match modalities r with
  | Some x =>
      existsb (fun m => PyStr.mem (PyStr.strip m) (PyStr.split_comma x)) sels
  | None => false
  end.

(** Lines 173-174; a comparison with NaN is false. *)
Definition year_mask (range : Z * Z) (r : DatasetRecord) : bool :=
  match year_published r with
  | Some y => ((fst range <=? y) && (y <=? snd range))%Z
  | None => false
  end.

(** [filtered_df['dataset_id'].str.contains(search_term, case=False)]:
    the term is a regular expression ([regex=True] is the default),
    compiled once, then searched for in every id. *)
Definition str_contains (pat : string) (ids : list string) : outcome (list bool) :=
  match PyRe.compile pat with
  | PyRe.Pattern atoms => Ok (map (PyRe.search atoms) ids)
  | PyRe.Rejected => Raise ReError
  | PyRe.Unsupported => Outside
  end.

(** Boolean-mask indexing [df[mask]]. *)
Fixpoint select_mask (df : table) (mask : list bool) : table :=
  match df, mask with
  | r :: rs, b :: bs => if b then r :: select_mask rs bs else select_mask rs bs
  | _, _ => []
  end.

Definition task_filter (sel : string) (df : table) : table :=
  if String.eqb sel "All" then df else List.filter (task_mask sel) df.

Definition area_filter (sel : string) (df : table) : table :=
  if String.eqb sel "All" then df else List.filter (area_mask sel) df.

Definition modality_filter (sels : list string) (df : table) : table :=
  match sels with
  | [] => df
  | _ :: _ => List.filter (modality_mask sels) df
  end.

Definition year_filter (range : Z * Z) (df : table) : table :=
  List.filter (year_mask range) df.

Definition search_filter (term : string) (df : table) : outcome table :=
  if PyStr.truthy term then
    let* mask := str_contains term (map dataset_id df) in
    Ok (select_mask df mask)
  else Ok df.

(** Lines 159-180. *)
Definition filtering_logic (c : FilterCriteria) (df : table) : outcome table :=
  let f1 := task_filter (selected_task c) df in
  let f2 := area_filter (selected_area c) f1 in
  let f3 := modality_filter (selected_modalities c) f2 in
  let f4 := year_filter (year_range c) f3 in
  search_filter (search_term c) f4.

(** The whole function: the slider needs the year bounds of the table
    before any filtering happens. *)
Definition create_filter_panel (df : table) (c : FilterCriteria) : outcome table :=
  let* _ := year_bounds df in
  filtering_logic c df.

(** ** Pagination (lines 268-284 of [main]) *)

Local Open Scope Z_scope.

Definition page_size_options : list Z := [10; 20; 50; 100].

(** [math.ceil(a / b)] on the exact quotient.  The program divides in
    floating point; for row counts below 2^46 the rounded quotient has the
    same ceiling. *)
Definition ceil_div (a b : Z) : Z := - ((- a) / b).

(** Python's resolution of a slice bound against a length. *)
Definition clamp_index (len i : Z) : Z :=
  if i <? 0 then Z.max (i + len) 0 else Z.min i len.

(** [slice(start, stop).indices(len)] for the default step. *)
Definition slice_indices (len start stop : Z) : Z * Z :=
  (clamp_index len start, clamp_index len stop).

(** [df.iloc[start:stop]]: never raises, whatever the bounds. *)
Definition iloc_slice {A : Type} (l : list A) (start stop : Z) : list A :=
  let '(s, e) := slice_indices (Z.of_nat (length l)) start stop in
  firstn (Z.to_nat (e - s)) (skipn (Z.to_nat s) l).

Record Page : Type := {
  total_pages : Z;
  effective_page : Z;   (* [st.session_state.current_page] after line 279 *)
  start_idx : Z;
  end_idx : Z
}.

(** Lines 271-283, as a function of the number of filtered rows, the page
    size and the page stored in the session. *)
Definition paginate (total_rows : nat) (page_size requested_page : Z) : outcome Page :=
  if page_size =? 0 then Raise ZeroDivisionError
  else
    let tp := ceil_div (Z.of_nat total_rows) page_size in
    let cur := if requested_page >? tp then 1 else requested_page in
    let start := (cur - 1) * page_size in
    Ok {| total_pages := tp;
          effective_page := cur;
          start_idx := start;
          end_idx := start + page_size |}.

(** The rows line 284 puts on the page. *)
Definition page_data (filtered : table) (p : Page) : table :=
  iloc_slice filtered (start_idx p) (end_idx p).

(** The slice bounds that line 284 resolves against the filtered table. *)
Definition visible_bounds (total_rows : nat) (p : Page) : Z * Z :=
  slice_indices (Z.of_nat total_rows) (start_idx p) (end_idx p).

(** ** Session state and one run of [main] *)

Record SessionState : Type := {
  current_page : Z;
  selected_dataset_id : option string
}.

(** What lines 274-275 and 291-292 store on the first run. *)
Definition initial_state : SessionState :=
  {| current_page := 1; selected_dataset_id := None |}.

(** The button, if any, whose click triggered this run. *)
Inductive Click : Type :=
| NoClick                 (* a widget changed, or a rerun was requested *)
| ClickRow (id : string)  (* the button of a table row *)
| ClickPrev
| ClickPage (p : Z)
| ClickNext.

Record Widgets : Type := {
  criteria : FilterCriteria;
  page_size : Z;
  click : Click
}.

(** [range(a, b)] *)
Definition py_range (a b : Z) : list Z :=
  map (fun i => a + Z.of_nat i) (seq 0 (Z.to_nat (b - a))).

(** Lines 378-399; [None] stands for the ellipsis entry. *)
Definition displayed_pages (tp current : Z) : list (option Z) :=
  if tp <=? 7 then map Some (py_range 1 (tp + 1))
  else
    [Some 1]
    ++ (if current >? 3 then [None] else [])
    ++ map Some (py_range (Z.max 2 (current - 1))
                          (Z.min (tp - 1) (current + 1) + 1))
    ++ (if current <? tp - 2 then [None] else [])
    ++ (if tp >? 1 then [Some tp] else []).

(** The page buttons that lines 402-412 create: one per column, and there
    are [min(7, total_pages)] columns. *)
Definition page_buttons (tp current : Z) : list (option Z) :=
  firstn (Z.to_nat (Z.min 7 tp)) (displayed_pages tp current).

Definition has_page_button (p tp current : Z) : bool :=
  existsb (fun e => match e with
                    | Some q => q =? p
                    | None => false
                    end) (page_buttons tp current).

(** [if st.session_state.selected_dataset_id:] *)
Definition selection_truthy (sel : option string) : option string :=
  match sel with
  | Some id => if PyStr.truthy id then Some id else None
  | None => None
  end.

(** [df[df['dataset_id'] == id].iloc[0]] (line 421), on the full table. *)
Definition selected_row (df : table) (id : string) : outcome DatasetRecord :=
  match List.filter (fun r => String.eqb (dataset_id r) id) df with
  | r :: _ => Ok r
  | [] => Raise IndexError
  end.

(** How a run of the script ends. *)
Inductive RunEnd : Type :=
| EmptyWarning                     (* line 256-257 *)
| Rerun                            (* [st.experimental_rerun()] *)
| Rendered (page : table) (pages : Z) (details : option DatasetRecord)
| Crashed (e : exn)                (* an exception leaves [main] *)
| OutsideModel.

Definition with_page (st : SessionState) (p : Z) : SessionState :=
  {| current_page := p; selected_dataset_id := selected_dataset_id st |}.

Definition with_selection (st : SessionState) (id : string) : SessionState :=
  {| current_page := current_page st; selected_dataset_id := Some id |}.

(** Lines 419-423. *)
Definition show_selected (df : table) (st : SessionState)
    (pd : table) (tp : Z) : RunEnd :=
  match selection_truthy (selected_dataset_id st) with
  | Some id =>
      match selected_row df id with
      | Ok r => Rendered pd tp (Some r)
      | Raise e => Crashed e
      | Outside => OutsideModel
      end
  | None => Rendered pd tp None
  end.

(** A button that reports a click updates the session and requests a
    rerun, which ends the run at once.  Lines 311-373 create the row
    buttons, one for each row of the page, and [Previous], which is
    disabled on page 1. *)
Definition early_click (ev : Click) (st : SessionState) (pd : table)
    : option SessionState :=
  match ev with
  | ClickRow id =>
      if PyStr.mem id (map dataset_id pd) then Some (with_selection st id)
      else None
  | ClickPrev =>
      if current_page st =? 1 then None
      else Some (with_page st (current_page st - 1))
  | _ => None
  end.

(** [st.columns(n)] for an integer [n] (line 377): Streamlit accepts a
    positive number of columns and raises otherwise. *)
Definition st_columns (n : Z) : outcome unit :=
  if n <=? 0 then Raise StreamlitAPIException else Ok tt.

(** Lines 401-417 create the page buttons, the one of the current page
    disabled, and [Next], which is disabled on the last page. *)
Definition late_click (ev : Click) (st : SessionState) (tp : Z)
    : option SessionState :=
  match ev with
  | ClickPage p =>
      if has_page_button p tp (current_page st) && negb (p =? current_page st)
      then Some (with_page st p)
      else None
  | ClickNext =>
      if current_page st =? tp then None
      else Some (with_page st (current_page st + 1))
  | _ => None
  end.

(** One run of [main] over the loaded table: the session state it leaves
    behind and how it ends.  The order is the one of the script: filter,
    page arithmetic, row buttons and [Previous], the columns of the page
    buttons, page buttons and [Next], details of the selection. *)
Definition main (df : table) (w : Widgets) (st : SessionState)
    : SessionState * RunEnd :=
  match df with
  | [] => (st, EmptyWarning)
  | _ :: _ =>
      match create_filter_panel df (criteria w) with
      | Raise e => (st, Crashed e)
      | Outside => (st, OutsideModel)
      | Ok filtered =>
          match paginate (length filtered) (page_size w) (current_page st) with
          | Raise e => (st, Crashed e)
          | Outside => (st, OutsideModel)
          | Ok p =>
              let st1 := with_page st (effective_page p) in
              let pd := page_data filtered p in
              match early_click (click w) st1 pd with
              | Some st2 => (st2, Rerun)
              | None =>
                  match st_columns (Z.min 7 (total_pages p)) with
                  | Raise e => (st1, Crashed e)
                  | Outside => (st1, OutsideModel)
                  | Ok _ =>
                      match late_click (click w) st1 (total_pages p) with
                      | Some st2 => (st2, Rerun)
                      | None =>
                          (st1, show_selected df st1 pd (total_pages p))
                      end
                  end
              end
          end
      end
  end.

(** ** Reference notions the properties are stated against *)

Local Close Scope Z_scope.

(** A token has a character that trimming keeps. *)
Definition has_ink (t : string) : bool :=
  existsb (fun c => negb (PyStr.is_space c)) (list_ascii_of_string t).

(** A one-pass count of the comma-separated fields of [s] that are not
    blank; [seen] records whether the field being read already has a
    character other than white space. *)
Fixpoint scan_fields (s : string) (seen : bool) : nat :=
  match s with
  | EmptyString => if seen then 1 else 0
  | String c r =>
      if PyStr.is_comma c
      then (if seen then 1 else 0) + scan_fields r false
      else scan_fields r (seen || negb (PyStr.is_space c))
  end.

Definition nonblank_field_count (s : string) : nat := scan_fields s false.

(** [needle] occurs in [hay] as a literal substring, letter case ignored. *)
Definition ci_contains (hay needle : string) : Prop :=
  exists pre post,
    PyStr.lower hay = String.append pre (String.append (PyStr.lower needle) post).

(** No character of [s] is special in a regular expression. *)
Definition plain (s : string) : bool :=
  forallb (fun c => negb (PyRe.is_special c)) (list_ascii_of_string s).

(** The modality rule as the data model words it: some parsed token of
    the record is one of the selected tags. *)
Definition token_match (sels : list string) (x : option string) : bool :=
  match x with
  | Some s => existsb (fun tok => PyStr.mem tok sels) (parse_tokens s)
  | None => false
  end.

(** The test of the comprehension in lines 117 and 120. *)
Definition kept (t : string) : bool := PyStr.truthy (PyStr.strip t).

(** The row has a year. *)
Definition dated (r : DatasetRecord) : bool :=
  match year_published r with
  | Some _ => true
  | None => false
  end.

(** ** Sample data *)

Definition sample (id tsk : string) (mods : option string) (yr : option Z)
    : DatasetRecord :=
  derive {| csv_dataset_id := id;
            csv_task := tsk;
            csv_area := Some "NLP";
            csv_modalities := mods;
            csv_associated_tasks := None;
            csv_benchmark_urls := Some "http://a, http://b,";
            csv_year_published := yr;
            csv_license := None;
            csv_languages := None;
            csv_description := None |}.

Definition row_2019 : DatasetRecord := sample "squad" "QA" (Some "Text") (Some 2019%Z).
Definition row_2021 : DatasetRecord := sample "coco" "Detection" (Some "Text, Image") (Some 2021%Z).
Definition row_undated : DatasetRecord := sample "abc" "QA" None None.

Definition sample_table : table := [row_2019; row_undated; row_2021].

Definition all_criteria (range : Z * Z) : FilterCriteria :=
  {| selected_task := "All";
     selected_area := "All";
     selected_modalities := [];
     year_range := range;
     search_term := "" |}.

(** No constraint but a search term. *)
Definition searching (term : string) (range : Z * Z) : FilterCriteria :=
  {| selected_task := "All";
     selected_area := "All";
     selected_modalities := [];
     year_range := range;
     search_term := term |}.


(** A session in which the row "squad" was selected. *)
Definition squad_state : SessionState :=
  {| current_page := 1; selected_dataset_id := Some "squad" |}.

(** The widgets of a run that no button click triggered, 20 rows a page. *)
Definition idle (c : FilterCriteria) : Widgets :=
  {| criteria := c; page_size := 20%Z; click := NoClick |}.

(** ** The options of the sidebar widgets (lines 133-148) *)

(** Strict order of Python strings: code points, lexicographically. *)
Definition str_lt (a b : string) : Prop := String.compare a b = Lt.

(** [sorted(set(xs))] on strings: the distinct elements in ascending
    order of code points, built by ordered insertion. *)
Fixpoint insert_sorted (x : string) (l : list string) : list string :=
  match l with
  | [] => [x]
  | h :: t =>
      match String.compare x h with
      | Lt => x :: l
      | Eq => l
      | Gt => h :: insert_sorted x t
      end
  end.

Definition sorted_set (xs : list string) : list string :=
  fold_right insert_sorted [] xs.

(** Lines 144-146: the trimmed, non-blank tokens of every row that has
    modality data. *)
Definition all_modalities (df : table) : list string :=
  flat_map (fun r => match modalities r with
                     | Some mods => parse_tokens mods
                     | None => []
                     end) df.

(** Line 147. *)
Definition unique_modalities (df : table) : list string :=
  sorted_set (all_modalities df).

(** Line 140. *)
Definition areas (df : table) : list string :=
  "All" :: sorted_set (flat_map (fun r => match area r with
                                          | Some a => [a]
                                          | None => []
                                          end) df).

(** [df['task'].value_counts()[t]]: the number of rows with task [t]. *)
Definition task_count (df : table) (t : string) : nat :=
  length (List.filter (task_mask t) df).

(** The decimal text of a count inside an f-string. *)
Definition str_of_nat (n : nat) : string :=
  NilEmpty.string_of_uint (Nat.to_uint n).

(** Line 135: the option text [f"{task} ({count})"]. *)
Definition task_option (t : string) (count : nat) : string :=
  String.append t (String.append " (" (String.append (str_of_nat count) ")")).

(** [s.split(sep)[0]] for a non-empty separator: the text before the
    first occurrence of [sep], or all of [s] when there is none. *)
Fixpoint split_first (sep s : string) : string :=
  if String.prefix sep s then EmptyString
  else match s with
       | EmptyString => EmptyString
       | String c r => String c (split_first sep r)
       end.

(** Line 137. *)
Definition selected_task_of (selected_task_with_count : string) : string :=
  if String.eqb selected_task_with_count "All" then "All"
  else split_first " (" selected_task_with_count.

(** [sep] occurs somewhere in [s]. *)
Fixpoint occurs (sep s : string) : bool :=
  String.prefix sep s ||
  match s with
  | EmptyString => false
  | String _ r => occurs sep r
  end.

(** ** The chips of [show_dataset_details] (lines 222-246) *)

(** [None] stands for the text shown when the field is missing. *)
Definition modality_chips (r : DatasetRecord) : option (list string) :=
  option_map parse_tokens (modalities r).

Definition task_chips (r : DatasetRecord) : option (list string) :=
  option_map parse_tokens (associated_tasks r).

(** ** The yearly trend of the statistics tab (line 438) *)

(** One more occurrence of year [y] in a list of (year, count) pairs kept
    in ascending order of the year. *)
Fixpoint bump (y : Z) (l : list (Z * nat)) : list (Z * nat) :=
  match l with
  | [] => [(y, 1%nat)]
  | (k, n) :: t =>
      if (y <? k)%Z then (y, 1%nat) :: l
      else if (y =? k)%Z then (k, S n) :: t
      else (k, n) :: bump y t
  end.

(** [filtered_df['year_published'].value_counts().sort_index()]: missing
    years are not counted; the index is ascending. *)
Definition year_counts (df : table) : list (Z * nat) :=
  fold_right bump [] (years df).

(** ** The rows of page [k] *)

(** What lines 271-284 put on the page when page [k] is stored. *)
Definition page_at (filtered : table) (page_size k : Z) : table :=
  match paginate (length filtered) page_size k with
  | Ok p => page_data filtered p
  | _ => []
  end.

(** The row satisfies every active constraint of the criteria; the search
    term is read literally. *)
Definition row_passes (c : FilterCriteria) (r : DatasetRecord) : Prop :=
  (selected_task c = "All" \/ task r = selected_task c) /\
  (selected_area c = "All" \/ area r = Some (selected_area c)) /\
  (selected_modalities c = [] \/ modality_mask (selected_modalities c) r = true) /\
  (exists y, year_published r = Some y /\
             (fst (year_range c) <= y <= snd (year_range c))%Z) /\
  (search_term c = "" \/ ci_contains (dataset_id r) (search_term c)).

(** ** A session: one run of the script after another *)

(** The session state after the runs triggered, in order, by the widget
    values [ws]. *)
Fixpoint run_session (df : table) (ws : list Widgets) (st : SessionState)
    : SessionState :=
  match ws with
  | [] => st
  | w :: rest => run_session df rest (fst (main df w st))
  end.

Definition is_row_click (ev : Click) : bool :=
  match ev with
  | ClickRow _ => true
  | _ => false
  end.

(** ** Derived counts *)

Lemma truthy_rstrip (t : string) : PyStr.truthy (PyStr.rstrip t) = has_ink t.
Proof.
  unfold has_ink.
  induction t as [|c r IH]; simpl; [reflexivity|].
  destruct (PyStr.rstrip r) eqn:E; simpl in *.
  - rewrite <- IH. destruct (PyStr.is_space c); reflexivity.
  - rewrite <- IH. now rewrite orb_true_r.
Qed.

Lemma has_ink_lstrip (t : string) : has_ink (PyStr.lstrip t) = has_ink t.
Proof.
  unfold has_ink.
  induction t as [|c r IH]; simpl; [reflexivity|].
  destruct (PyStr.is_space c) eqn:E; simpl; [exact IH | now rewrite E].
Qed.

Lemma truthy_strip (t : string) : PyStr.truthy (PyStr.strip t) = has_ink t.
Proof. unfold PyStr.strip. now rewrite truthy_rstrip, has_ink_lstrip. Qed.

Lemma split_comma_cons (s : string) :
  exists tok toks, PyStr.split_comma s = tok :: toks.
Proof.
  destruct s as [|c r]; simpl; [eauto|].
  destruct (PyStr.is_comma c); [eauto|].
  destruct (PyStr.split_comma r); eauto.
Qed.

Lemma scan_fields_split (s : string) (seen : bool) :
  scan_fields s seen =
  match PyStr.split_comma s with
  | tok :: toks =>
      (if seen || has_ink tok then 1 else 0) + length (List.filter kept toks)
  | [] => 0
  end.
Proof.
  revert seen. induction s as [|c r IH]; intros seen; simpl.
  - unfold has_ink; simpl. rewrite orb_false_r. destruct seen; reflexivity.
  - destruct (PyStr.is_comma c) eqn:Ec.
    + rewrite IH. destruct (split_comma_cons r) as (tok & toks & E).
      rewrite E. unfold has_ink at 2. simpl. rewrite orb_false_r.
      unfold kept at 2. rewrite truthy_strip. simpl.
      destruct (has_ink tok); simpl; reflexivity.
    + rewrite IH. destruct (split_comma_cons r) as (tok & toks & E).
      rewrite E. unfold has_ink at 2. simpl. fold (has_ink tok).
      now rewrite orb_assoc.
Qed.

(** C10.  The count that [load_data] derives from a delimited field is the
    number of its comma-separated fields that are not blank after
    trimming; for ["http://a, http://b,"] it is 2; an absent field and a
    field of white space both count 0.  The function is total, so no input
    raises. *)
Theorem derived_count_is_nonblank_field_count :
  (forall s : string, token_count (Some s) = nonblank_field_count s) /\
  (forall source : option (list CsvRow),
      Forall (fun r => benchmark_cnt r = token_count (benchmark_urls r) /\
                       associated_task_cnt r = token_count (associated_tasks r))
             (load_data source)) /\
  token_count (Some "http://a, http://b,") = 2 /\
  benchmark_cnt row_2019 = 2 /\
  token_count None = 0 /\
  token_count (Some "") = 0 /\
  token_count (Some "   ") = 0.
Proof.
  split; [|split; [|repeat split; reflexivity]].
  - intros s. unfold token_count, nonblank_field_count.
    rewrite scan_fields_split.
    destruct (split_comma_cons s) as (tok & toks & E). rewrite E. simpl.
    fold kept. unfold kept at 1. rewrite truthy_strip.
    destruct (has_ink tok); reflexivity.
  - intros [rows|]; simpl; [|constructor].
    induction rows as [|r rows IH]; simpl; constructor; auto.
Qed.

Example first_run_shows_no_details :
  main sample_table (idle (all_criteria (2019, 2021)%Z)) initial_state
  = (initial_state, Rendered [row_2019; row_2021] 1 None).
Proof. reflexivity. Qed.

(** ** Pagination *)

Section Pagination.
Local Open Scope Z_scope.

(** [ceil_div] is the ceiling of the quotient: the least number of pages
    of [b] rows that hold [a] rows. *)
Lemma ceil_div_least (a b : Z) :
  0 < b -> (ceil_div a b - 1) * b < a <= ceil_div a b * b.
Proof.
  intros Hb. unfold ceil_div.
  pose proof (Z.div_mod (- a) b ltac:(lia)) as E.
  pose proof (Z.mod_pos_bound (- a) b Hb) as M.
  nia.
Qed.

Lemma ceil_div_zero (b : Z) : ceil_div 0 b = 0.
Proof. unfold ceil_div. simpl. now rewrite Zdiv_0_l. Qed.

Lemma allowed_page_size (ps : Z) :
  In ps page_size_options -> ps = 10 \/ ps = 20 \/ ps = 50 \/ ps = 100.
Proof. simpl. intuition. Qed.

Lemma iloc_slice_nil {A : Type} (a b : Z) : iloc_slice (@nil A) a b = [].
Proof.
  unfold iloc_slice. destruct (slice_indices _ a b) as [s e].
  now rewrite skipn_nil, firstn_nil.
Qed.

(** C7.  For every allowed page size, every filtered table and every
    stored page number, the page computation returns (it does not
    raise); a stored page beyond the last one is replaced by page 1, any
    other is kept; with no rows there are 0 pages, page 1 is the
    effective page and the visible slice is empty. *)
Theorem paginate_never_raises (filtered : table) (ps req : Z) :
  In ps page_size_options ->
  exists p,
    paginate (length filtered) ps req = Ok p /\
    (req > total_pages p -> effective_page p = 1) /\
    (req <= total_pages p -> effective_page p = req) /\
    (filtered = [] ->
       total_pages p = 0 /\ page_data filtered p = [] /\
       (req = 1 -> effective_page p = 1)).
Proof.
  intros Hps. apply allowed_page_size in Hps.
  assert (Hz : (ps =? 0) = false) by (apply Z.eqb_neq; lia).
  unfold paginate. rewrite Hz.
  eexists; split; [reflexivity|].
  cbn [total_pages effective_page start_idx end_idx].
  split; [|split].
  - intros H. apply Z.gtb_gt in H. now rewrite H.
  - intros H. destruct (req >? _) eqn:E; [apply Z.gtb_gt in E; lia | reflexivity].
  - intros ->. cbn [length Z.of_nat]. rewrite ceil_div_zero.
    split; [reflexivity|]. split; [apply iloc_slice_nil|].
    intros ->. reflexivity.
Qed.

Lemma paginate_never_raises_witness :
  In 20 page_size_options /\
  exists p,
    paginate (length (@nil DatasetRecord)) 20 1 = Ok p /\
    (1 > total_pages p -> effective_page p = 1) /\
    (1 <= total_pages p -> effective_page p = 1) /\
    (@nil DatasetRecord = [] ->
       total_pages p = 0 /\ page_data [] p = [] /\
       (1 = 1 -> effective_page p = 1)).
Proof.
  split; [simpl; tauto|].
  apply (paginate_never_raises [] 20 1). simpl; tauto.
Defined.

(** C8.  With 45 filtered rows, 20 rows per page and page 3 stored,
    there are 3 pages, page 3 is kept, the slice starts at row 40 and
    the end bound the slice resolves to is
    [min(start + page_size, total_rows) = 45] (the variable [end_idx]
    itself holds [start + page_size]); the page shows exactly the last 5
    rows. *)
Theorem paginate_45_20_3 (filtered : table) :
  length filtered = 45%nat ->
  exists p,
    paginate 45 20 3 = Ok p /\
    total_pages p = 3 /\
    effective_page p = 3 /\
    start_idx p = 40 /\
    snd (visible_bounds 45 p) = Z.min (start_idx p + 20) 45 /\
    visible_bounds 45 p = (40, 45) /\
    page_data filtered p = skipn 40 filtered /\
    length (page_data filtered p) = 5%nat.
Proof.
  intros Hlen.
  exists {| total_pages := 3; effective_page := 3; start_idx := 40; end_idx := 60 |}.
  split; [reflexivity|].
  assert (Hpd : iloc_slice filtered 40 60 = skipn 40 filtered).
  { unfold iloc_slice, slice_indices, clamp_index. rewrite Hlen.
    change (Z.to_nat (Z.min 60 (Z.of_nat 45) - Z.min 40 (Z.of_nat 45))) with 5%nat.
    change (Z.to_nat (Z.min 40 (Z.of_nat 45))) with 40%nat.
    apply firstn_all2. rewrite length_skipn, Hlen. reflexivity. }
  unfold page_data. cbn [total_pages effective_page start_idx end_idx].
  rewrite Hpd, length_skipn, Hlen.
  repeat split; reflexivity.
Qed.

Lemma paginate_45_20_3_witness :
  exists p,
    paginate 45 20 3 = Ok p /\
    total_pages p = 3 /\
    effective_page p = 3 /\
    start_idx p = 40 /\
    snd (visible_bounds 45 p) = Z.min (start_idx p + 20) 45 /\
    visible_bounds 45 p = (40, 45) /\
    page_data (repeat row_2019 45) p = skipn 40 (repeat row_2019 45) /\
    length (page_data (repeat row_2019 45) p) = 5%nat.
Proof. apply (paginate_45_20_3 (repeat row_2019 45)). reflexivity. Defined.

End Pagination.

(** ** The filter keeps a subsequence of its input *)

Section Subsequence.

Lemma filter_sublist {A : Type} (f : A -> bool) (l : list A) :
  List.filter f l `sublist_of` l.
Proof.
  induction l as [|x l IH]; simpl; [constructor|].
  destruct (f x); now constructor.
Qed.

Lemma select_mask_sublist (df : table) (mask : list bool) :
  select_mask df mask `sublist_of` df.
Proof.
  revert mask. induction df as [|r rs IH]; intros mask; simpl.
  - constructor.
  - destruct mask as [|b bs]; [apply sublist_nil_l|].
    destruct b; constructor; apply IH.
Qed.

Lemma select_mask_map (f : DatasetRecord -> bool) (df : table) :
  select_mask df (map f df) = List.filter f df.
Proof.
  induction df as [|r rs IH]; simpl; [reflexivity|].
  rewrite IH. reflexivity.
Qed.


Lemma sublist_In {A : Type} (l1 l2 : list A) (x : A) :
  l1 `sublist_of` l2 -> In x l1 -> In x l2.
Proof. induction 1; simpl; intuition. Qed.

Lemma task_filter_sublist sel df : task_filter sel df `sublist_of` df.
Proof.
  unfold task_filter. destruct (String.eqb sel "All");
    [reflexivity | apply filter_sublist].
Qed.

Lemma area_filter_sublist sel df : area_filter sel df `sublist_of` df.
Proof.
  unfold area_filter. destruct (String.eqb sel "All");
    [reflexivity | apply filter_sublist].
Qed.

Lemma modality_filter_sublist sels df : modality_filter sels df `sublist_of` df.
Proof.
  unfold modality_filter. destruct sels; [reflexivity | apply filter_sublist].
Qed.

Lemma year_filter_sublist range df : year_filter range df `sublist_of` df.
Proof. apply filter_sublist. Qed.

Lemma search_filter_sublist term df out :
  search_filter term df = Ok out -> out `sublist_of` df.
Proof.
  unfold search_filter, str_contains.
  destruct (PyStr.truthy term).
  - destruct (PyRe.compile term); simpl; try discriminate.
    intros [= <-]. apply select_mask_sublist.
  - intros [= <-]. reflexivity.
Qed.

Lemma filtering_logic_sublist c df out :
  filtering_logic c df = Ok out -> out `sublist_of` df.
Proof.
  unfold filtering_logic. intros H. apply search_filter_sublist in H.
  etransitivity; [exact H|].
  etransitivity; [apply year_filter_sublist|].
  etransitivity; [apply modality_filter_sublist|].
  etransitivity; [apply area_filter_sublist|].
  apply task_filter_sublist.
Qed.

Lemma plain_cons c r :
  plain (String c r) = true ->
  PyRe.is_special c = false /\ plain r = true.
Proof.
  unfold plain. simpl. intros H. apply andb_true_iff in H as [H1 H2].
  split; [now apply negb_true_iff in H1 | exact H2].
Qed.

Lemma compile_plain (s : string) :
  plain s = true ->
  PyRe.compile s = PyRe.Pattern (map PyRe.Lit (list_ascii_of_string s)).
Proof.
  induction s as [|c r IH]; intros H; simpl; [reflexivity|].
  apply plain_cons in H as [Hc Hr].
  destruct (Ascii.eqb c ".") eqn:E1.
  { apply Ascii.eqb_eq in E1. subst c. discriminate Hc. }
  destruct (Ascii.eqb c "(") eqn:E2.
  { apply Ascii.eqb_eq in E2. subst c. discriminate Hc. }
  rewrite Hc, (IH Hr). reflexivity.
Qed.




End Subsequence.

(** ** The search box *)

Section Search.

Lemma match_here_literal (t s : string) :
  PyRe.match_here (map PyRe.Lit (list_ascii_of_string t)) s = true <->
  exists post, PyStr.lower s = String.append (PyStr.lower t) post.
Proof.
  revert s. induction t as [|a t IH]; intros s; simpl.
  - split; [intros _; now exists (PyStr.lower s) | reflexivity].
  - destruct s as [|c r]; simpl.
    + split; [discriminate | intros [post H]; discriminate].
    + rewrite andb_true_iff, Ascii.eqb_eq, IH. split.
      * intros [Hc [post Hr]]. exists post. now rewrite Hc, Hr.
      * intros [post H]. injection H as Hc Hr. split; [now symmetry | eauto].
Qed.

Lemma search_unfold (atoms : list PyRe.atom) (s : string) :
  PyRe.search atoms s =
  PyRe.match_here atoms s ||
  match s with
  | EmptyString => false
  | String _ r => PyRe.search atoms r
  end.
Proof. destruct s; reflexivity. Qed.

(** On a term without special characters the compiled pattern finds
    exactly the literal occurrences, letter case ignored. *)
Lemma search_literal (t s : string) :
  PyRe.search (map PyRe.Lit (list_ascii_of_string t)) s = true <->
  ci_contains s t.
Proof.
  unfold ci_contains. split.
  - induction s as [|c r IH]; rewrite search_unfold, orb_true_iff.
    + intros [H|H]; [|discriminate].
      apply match_here_literal in H as [post H]. now exists EmptyString, post.
    + intros [H|H].
      * apply match_here_literal in H as [post H]. now exists EmptyString, post.
      * destruct (IH H) as (pre & post & E).
        exists (String (PyStr.lower_char c) pre), post. simpl. now rewrite E.
  - intros (pre & post & E). revert pre E.
    induction s as [|c r IH]; intros pre E; rewrite search_unfold, orb_true_iff.
    + left. apply match_here_literal. destruct pre; [|discriminate E].
      now exists post.
    + destruct pre as [|a pre].
      * left. apply match_here_literal. now exists post.
      * right. simpl in E. injection E as _ E. now apply (IH pre).
Qed.

(** C4 as stated fails twice.  The term ["."] keeps the row ["abc"],
    whose id has no full stop in it, so the rows kept are not those
    with a literal occurrence; the term ["("] makes the filter raise
    [re.error], so no table is returned. *)
Lemma search_term_is_a_regex :
  ~ (exists out,
        search_filter "." [row_undated] = Ok out /\
        forall r, In r out <-> In r [row_undated] /\ ci_contains (dataset_id r) ".") /\
  search_filter "." [row_undated] = Ok [row_undated] /\
  search_filter "(" [row_undated] = Raise ReError.
Proof.
  split; [|split; reflexivity].
  intros (out & Hout & Hiff). injection Hout as <-.
  destruct (proj1 (Hiff row_undated)) as [_ H]; [now left|].
  apply search_literal in H. discriminate H.
Qed.

(** C4, amended.  For a non-empty search term without special
    characters the search filter returns, and keeps exactly the rows
    whose [dataset_id] contains the term as a literal substring, letter
    case ignored, in their order. *)
Theorem search_filter_plain_term (term : string) (df : table) :
  term <> "" ->
  plain term = true ->
  exists out,
    search_filter term df = Ok out /\
    out `sublist_of` df /\
    forall r, In r out <-> In r df /\ ci_contains (dataset_id r) term.
Proof.
  intros Hne Hp. unfold search_filter, str_contains.
  destruct term as [|c t]; [congruence|].
  cbn [PyStr.truthy]. rewrite (compile_plain _ Hp). cbn [bind].
  rewrite map_map, select_mask_map.
  eexists. split; [reflexivity|]. split; [apply filter_sublist|].
  intros r. rewrite filter_In, search_literal. reflexivity.
Qed.

Lemma search_filter_plain_term_witness :
  exists out,
    search_filter "SQ" sample_table = Ok out /\
    out `sublist_of` sample_table /\
    forall r, In r out <-> In r sample_table /\ ci_contains (dataset_id r) "SQ".
Proof.
  apply (search_filter_plain_term "SQ" sample_table);
    [discriminate | reflexivity].
Defined.

Example search_SQ : search_filter "SQ" sample_table = Ok [row_2019].
Proof. reflexivity. Qed.

End Search.

(** ** The year range *)

Section YearRange.
Local Open Scope Z_scope.

Lemma year_mask_spec (lo hi : Z) (r : DatasetRecord) :
  year_mask (lo, hi) r = true <->
  exists y, year_published r = Some y /\ lo <= y <= hi.
Proof.
  unfold year_mask. simpl. destruct (year_published r) as [y|].
  - rewrite andb_true_iff, !Z.leb_le. split.
    + intros H. exists y. split; [reflexivity | lia].
    + intros (y' & [= <-] & H). lia.
  - split; [discriminate | intros (y & H & _); discriminate].
Qed.

(** Both bounds are inclusive. *)
Lemma year_mask_at_bounds (lo hi : Z) (r : DatasetRecord) :
  lo <= hi ->
  (year_published r = Some lo -> year_mask (lo, hi) r = true) /\
  (year_published r = Some hi -> year_mask (lo, hi) r = true).
Proof.
  intros H. split; intros E; apply year_mask_spec; eexists; split; eauto; lia.
Qed.

(** A row without a year fails the comparison for every range. *)
Lemma year_mask_missing (range : Z * Z) (r : DatasetRecord) :
  year_published r = None -> year_mask range r = false.
Proof. unfold year_mask. now intros ->. Qed.

Lemma fold_min_le (ys : list Z) (a : Z) :
  fold_left Z.min ys a <= a /\
  forall y, In y ys -> fold_left Z.min ys a <= y.
Proof.
  revert a. induction ys as [|z ys IH]; intros a; simpl.
  - split; [lia | intros y []].
  - destruct (IH (Z.min a z)) as [H1 H2]. split; [lia|].
    intros y [<-|H]; [lia | now apply H2].
Qed.

Lemma fold_max_ge (ys : list Z) (a : Z) :
  a <= fold_left Z.max ys a /\
  forall y, In y ys -> y <= fold_left Z.max ys a.
Proof.
  revert a. induction ys as [|z ys IH]; intros a; simpl.
  - split; [lia | intros y []].
  - destruct (IH (Z.max a z)) as [H1 H2]. split; [lia|].
    intros y [<-|H]; [lia | now apply H2].
Qed.

Lemma in_years (df : table) (r : DatasetRecord) (y : Z) :
  In r df -> year_published r = Some y -> In y (years df).
Proof.
  intros Hin Hy. unfold years. apply in_flat_map. exists r.
  split; [exact Hin|]. rewrite Hy. now left.
Qed.

Lemma filter_ext_in' (f g : DatasetRecord -> bool) (df : table) :
  (forall r, In r df -> f r = g r) -> List.filter f df = List.filter g df.
Proof.
  induction df as [|r rs IH]; intros H; simpl; [reflexivity|].
  rewrite (H r (or_introl eq_refl)), IH; [reflexivity|].
  intros x Hx. apply H. now right.
Qed.

(** With the widgets untouched the filter returns the rows that have a
    year, in order: the year comparison is applied even when the slider
    spans the whole observed range. *)
Lemma default_filter_keeps_dated (df : table) (c : FilterCriteria) :
  default_criteria df = Ok c ->
  create_filter_panel df c = Ok (List.filter dated df).
Proof.
  unfold default_criteria, create_filter_panel, year_bounds.
  destruct (years df) as [|y ys] eqn:Ey; simpl; [discriminate|].
  intros [= <-]. unfold filtering_logic, year_filter. simpl.
  f_equal. apply filter_ext_in'. intros r Hin.
  unfold year_mask, dated. simpl.
  destruct (year_published r) as [z|] eqn:Ez; [|reflexivity].
  pose proof (in_years df r z Hin Ez) as Hz. rewrite Ey in Hz.
  destruct (fold_min_le ys y) as [Hm1 Hm2].
  destruct (fold_max_ge ys y) as [HM1 HM2].
  apply andb_true_iff. rewrite !Z.leb_le.
  destruct Hz as [<-|Hz]; [lia|].
  specialize (Hm2 z Hz). specialize (HM2 z Hz). lia.
Qed.

(** C1, evaluated.  On a table with an undated row the untouched
    widgets (task and area "All", no modality, the full year range 2019
    to 2021, empty search) return the table without that row. *)
Theorem default_filter_drops_undated_row :
  default_criteria sample_table = Ok (all_criteria (2019, 2021)) /\
  create_filter_panel sample_table (all_criteria (2019, 2021))
    = Ok [row_2019; row_2021] /\
  sample_table = [row_2019; row_undated; row_2021] /\
  year_published row_undated = None.
Proof. repeat split. Qed.

(** C2, evaluated.  The observed range of the sample table is 2019 to
    2021; with exactly that range active the rows dated 2019 and 2021
    pass and the undated row is excluded. *)
Theorem full_range_excludes_undated_row :
  year_bounds sample_table = Ok (2019, 2021) /\
  year_mask (2019, 2021) row_2019 = true /\
  year_mask (2019, 2021) row_2021 = true /\
  year_published row_undated = None /\
  year_mask (2019, 2021) row_undated = false /\
  year_filter (2019, 2021) sample_table = [row_2019; row_2021].
Proof. repeat split. Qed.

End YearRange.

(** ** Modalities *)

Section Modalities.

(** What line 169 tests: a selected tag, trimmed, is one of the raw
    comma-separated pieces of the record's field. *)
Lemma modality_mask_spec (sels : list string) (r : DatasetRecord) :
  modality_mask sels r = true <->
  exists x m,
    modalities r = Some x /\ In m sels /\
    In (PyStr.strip m) (PyStr.split_comma x).
Proof.
  unfold modality_mask, PyStr.mem. destruct (modalities r) as [x|].
  - rewrite existsb_exists. split.
    + intros (m & Hm & H). apply existsb_exists in H as (tok & Htok & E).
      apply String.eqb_eq in E. subst tok. eauto.
    + intros (x' & m & [= <-] & Hm & H). exists m. split; [exact Hm|].
      apply existsb_exists. exists (PyStr.strip m). split; [exact H|].
      apply String.eqb_refl.
  - split; [discriminate | intros (x & m & H & _); discriminate].
Qed.

(** A record without modality data never passes. *)
Lemma modality_mask_no_data (sels : list string) (r : DatasetRecord) :
  modalities r = None -> modality_mask sels r = false.
Proof. unfold modality_mask. now intros ->. Qed.

(** C3, evaluated.  The record with modalities ["Text, Image"] has the
    parsed tokens "Text" and "Image", and "Image" is selected, yet the
    mask of line 169 is false: the pieces of the record are compared
    untrimmed, so " Image" is not "Image". *)
Theorem modality_mask_misses_spaced_token :
  modalities row_2021 = Some "Text, Image" /\
  parse_tokens "Text, Image" = ["Text"; "Image"] /\
  token_match ["Image"] (modalities row_2021) = true /\
  PyStr.split_comma "Text, Image" = ["Text"; " Image"] /\
  modality_mask ["Image"] row_2021 = false /\
  modality_filter ["Image"] [row_2021] = [].
Proof. repeat split. Qed.

Example modality_mask_unspaced :
  modality_mask ["Image"; "Audio"]
                (sample "x" "QA" (Some "Text,Image") None) = true.
Proof. reflexivity. Qed.

End Modalities.

(** ** Selection and the detail lookup *)

Section Selection.


Lemma selected_row_present (df : table) (id : string) :
  In id (map dataset_id df) ->
  exists r, selected_row df id = Ok r /\ In r df /\ dataset_id r = id.
Proof.
  intros H. apply in_map_iff in H as (r0 & E0 & Hin0).
  assert (H0 : In r0 (List.filter (fun r => String.eqb (dataset_id r) id) df))
    by (apply filter_In; split; [exact Hin0 | now apply String.eqb_eq]).
  unfold selected_row.
  destruct (List.filter _ df) as [|r rs] eqn:E; [destruct H0|].
  exists r. split; [reflexivity|].
  assert (Hr : In r (List.filter (fun r => String.eqb (dataset_id r) id) df))
    by (rewrite E; now left).
  apply filter_In in Hr as [Hin Heq]. now apply String.eqb_eq in Heq.
Qed.

(** With unique ids the lookup returns the one row that carries the id. *)
Lemma selected_row_unique (df : table) (r : DatasetRecord) :
  NoDup (map dataset_id df) -> In r df ->
  selected_row df (dataset_id r) = Ok r.
Proof.
  unfold selected_row. induction df as [|x xs IH]; intros Hnd Hin; [destruct Hin|].
  simpl in Hnd. apply NoDup_cons in Hnd as [Hx Hnd].
  rewrite list_elem_of_In in Hx.
  simpl. destruct (String.eqb (dataset_id x) (dataset_id r)) eqn:E.
  - destruct Hin as [->|Hin]; [reflexivity|].
    apply String.eqb_eq in E. exfalso. apply Hx. rewrite E. now apply in_map.
  - destruct Hin as [->|Hin]; [now rewrite String.eqb_refl in E|].
    now apply IH.
Qed.

Lemma iloc_slice_sublist {A : Type} (l : list A) (a b : Z) :
  iloc_slice l a b `sublist_of` l.
Proof.
  unfold iloc_slice. destruct (slice_indices _ a b) as [s e].
  etransitivity; [apply sublist_take | apply sublist_drop].
Qed.

Lemma truthy_nonempty (id : string) : id <> "" -> PyStr.truthy id = true.
Proof. destruct id; [congruence | reflexivity]. Qed.

Lemma paginate_with_rows (filtered : table) (ps req : Z) :
  filtered <> [] -> (0 < ps)%Z ->
  exists p, paginate (length filtered) ps req = Ok p /\ (0 < total_pages p)%Z.
Proof.
  intros Hne Hps. unfold paginate.
  destruct (Z.eqb_spec ps 0) as [?|_]; [lia|].
  eexists. split; [reflexivity|]. cbn [total_pages].
  pose proof (ceil_div_least (Z.of_nat (length filtered)) ps Hps) as Hc.
  assert (0 < Z.of_nat (length filtered))%Z
    by (destruct filtered; [congruence | simpl; lia]).
  nia.
Qed.

Lemma st_columns_positive (tp : Z) :
  (0 < tp)%Z -> st_columns (Z.min 7 tp) = Ok tt.
Proof.
  intros H. unfold st_columns.
  destruct (Z.leb_spec (Z.min 7 tp) 0); [lia | reflexivity].
Qed.

Lemma main_no_click (df : table) (w : Widgets) (st : SessionState)
    (filtered : table) (p : Page) :
  df <> [] ->
  create_filter_panel df (criteria w) = Ok filtered ->
  paginate (length filtered) (page_size w) (current_page st) = Ok p ->
  (0 < total_pages p)%Z ->
  click w = NoClick ->
  main df w st =
    (with_page st (effective_page p),
     show_selected df (with_page st (effective_page p))
                   (page_data filtered p) (total_pages p)).
Proof.
  intros Hdf Hf Hp Htp Hc. unfold main.
  destruct df as [|r0 rs]; [congruence|].
  rewrite Hf, Hp, Hc. cbn [early_click late_click].
  now rewrite (st_columns_positive _ Htp).
Qed.




Lemma early_click_keeps_selection (ev : Click) (st st' : SessionState)
    (pd : table) :
  (forall id, ev <> ClickRow id) ->
  early_click ev st pd = Some st' ->
  selected_dataset_id st' = selected_dataset_id st.
Proof.
  intros Hev. destruct ev as [|id| |q|]; simpl; try discriminate.
  - now destruct (Hev id).
  - destruct (_ =? _)%Z; [discriminate | now intros [= <-]].
Qed.

Lemma late_click_keeps_selection (ev : Click) (st st' : SessionState) (tp : Z) :
  late_click ev st tp = Some st' ->
  selected_dataset_id st' = selected_dataset_id st.
Proof.
  destruct ev as [|id| |q|]; simpl; try discriminate.
  - destruct (_ && _); [now intros [= <-] | discriminate].
  - destruct (_ =? _)%Z; [discriminate | now intros [= <-]].
Qed.

Lemma early_click_row (id : string) (st st' : SessionState) (pd : table) :
  early_click (ClickRow id) st pd = Some st' ->
  selected_dataset_id st' = Some id /\ In id (map dataset_id pd).
Proof.
  simpl. unfold PyStr.mem. destruct (existsb _ _) eqn:E; [|discriminate].
  intros [= <-]. split; [reflexivity|].
  apply existsb_exists in E as (x & Hx & Heq).
  apply String.eqb_eq in Heq. now subst x.
Qed.

(** C6, evaluated.  The row "squad" is selected and resolvable in the
    full table; the search term "zzz" then leaves no row, so there are 0
    pages and [st.columns(min(7, 0))] at line 377 raises before the
    lookup of line 421 is reached: the run ends with that exception and
    shows no details, although the selection is still stored. *)
Theorem empty_filter_result_stops_the_run :
  selected_dataset_id squad_state = Some "squad" /\
  selected_row sample_table "squad" = Ok row_2019 /\
  create_filter_panel sample_table (searching "zzz" (2019, 2021)%Z) = Ok [] /\
  main sample_table (idle (searching "zzz" (2019, 2021)%Z)) squad_state
    = (squad_state, Crashed StreamlitAPIException).
Proof. repeat split. Qed.

(** X18.  When the filter leaves at least one row, the details shown are
    those of the row of the full table that carries the selected id,
    whether or not that row passed the filter: with unique ids, a stored
    non-empty selection, a positive page size and no button clicked, the
    run renders the selected row's full record, the selection is
    unchanged, and the page shows only rows of the filtered table (so a
    row the filter excludes is absent from the page while its details
    are shown). *)
Theorem selection_independent_of_nonempty_filter
    (df : table) (w : Widgets) (st : SessionState)
    (r : DatasetRecord) (filtered : table) :
  In r df ->
  NoDup (map dataset_id df) ->
  dataset_id r <> "" ->
  selected_dataset_id st = Some (dataset_id r) ->
  create_filter_panel df (criteria w) = Ok filtered ->
  filtered <> [] ->
  (0 < page_size w)%Z ->
  click w = NoClick ->
  exists st' pd tp,
    main df w st = (st', Rendered pd tp (Some r)) /\
    selected_row df (dataset_id r) = Ok r /\
    selected_dataset_id st' = Some (dataset_id r) /\
    pd `sublist_of` filtered /\
    (~ In r filtered -> ~ In r pd).
Proof.
  intros Hin Hnd Hne Hsel Hf Hrows Hps Hc.
  destruct (paginate_with_rows filtered (page_size w) (current_page st) Hrows Hps)
    as (p & Hp & Htp).
  assert (Hdf : df <> []) by (intros ->; destruct Hin).
  pose proof (selected_row_unique df r Hnd Hin) as Hrow.
  rewrite (main_no_click df w st filtered p Hdf Hf Hp Htp Hc).
  unfold show_selected. simpl. rewrite Hsel. simpl.
  rewrite (truthy_nonempty _ Hne), Hrow.
  eexists _, _, _. split; [reflexivity|].
  split; [reflexivity|]. split; [exact Hsel|].
  pose proof (iloc_slice_sublist filtered (start_idx p) (end_idx p)) as Hsub.
  split; [exact Hsub|].
  intros Hout Hpd. apply Hout. eapply sublist_In; eauto.
Qed.

Lemma selection_independent_of_nonempty_filter_witness :
  exists st' pd tp,
    main sample_table (idle (all_criteria (2021, 2021)%Z)) squad_state
      = (st', Rendered pd tp (Some row_2019)) /\
    selected_row sample_table (dataset_id row_2019) = Ok row_2019 /\
    selected_dataset_id st' = Some (dataset_id row_2019) /\
    pd `sublist_of` [row_2021] /\
    (~ In row_2019 [row_2021] -> ~ In row_2019 pd).
Proof.
  apply (selection_independent_of_nonempty_filter
           sample_table (idle (all_criteria (2021, 2021)%Z)) squad_state
           row_2019 [row_2021]).
  - simpl. tauto.
  - apply NoDup_ListNoDup. repeat constructor; simpl;
      intros H; repeat (destruct H as [H|H]; [discriminate H|]); exact H.
  - discriminate.
  - reflexivity.
  - reflexivity.
  - discriminate.
  - reflexivity.
  - reflexivity.
Defined.

End Selection.

(** ** Trimmed tokens and chips *)

Section Tokens.

Lemma lstrip_head (s : string) :
  PyStr.lstrip s = "" \/
  exists c r, PyStr.lstrip s = String c r /\ PyStr.is_space c = false.
Proof.
  induction s as [|c r IH]; simpl; [now left|].
  destruct (PyStr.is_space c) eqn:E; [exact IH | right; eauto].
Qed.

Lemma rstrip_inked_head (c : ascii) (r : string) :
  PyStr.is_space c = false ->
  PyStr.rstrip (String c r) = String c (PyStr.rstrip r).
Proof. intros H. simpl. rewrite H. now destruct (PyStr.rstrip r). Qed.

Lemma rstrip_idempotent (s : string) :
  PyStr.rstrip (PyStr.rstrip s) = PyStr.rstrip s.
Proof.
  induction s as [|c r IH]; [reflexivity|].
  simpl. destruct (PyStr.rstrip r) as [|c' r'] eqn:E.
  - destruct (PyStr.is_space c) eqn:Ec; [reflexivity|].
    simpl. now rewrite Ec.
  - change (PyStr.rstrip (String c (String c' r')) = String c (String c' r')).
    simpl. simpl in IH. now rewrite IH.
Qed.

Lemma strip_idempotent (s : string) :
  PyStr.strip (PyStr.strip s) = PyStr.strip s.
Proof.
  unfold PyStr.strip.
  destruct (lstrip_head s) as [E|(c & r & E & Hc)]; rewrite E; [reflexivity|].
  rewrite (rstrip_inked_head c r Hc). simpl PyStr.lstrip at 1. rewrite Hc.
  rewrite <- (rstrip_inked_head c r Hc). apply rstrip_idempotent.
Qed.

Lemma truthy_true (s : string) : PyStr.truthy s = true <-> s <> "".
Proof. destruct s; simpl; split; congruence. Qed.

Lemma parse_tokens_In (s tok : string) :
  In tok (parse_tokens s) <->
  exists piece, In piece (PyStr.split_comma s) /\
                PyStr.strip piece = tok /\ tok <> "".
Proof.
  unfold parse_tokens. rewrite in_map_iff. split.
  - intros (piece & E & Hin). apply filter_In in Hin as [Hin Hk].
    exists piece. rewrite E in Hk. now rewrite <- truthy_true.
  - intros (piece & Hin & E & Hne). exists piece. split; [exact E|].
    apply filter_In. split; [exact Hin|]. rewrite E. now apply truthy_true.
Qed.

(** X1.  The tokens parsed from a delimited field are never empty and
    carry no surrounding white space (trimming them again changes
    nothing); for every loaded row the two metrics of the detail view
    agree with the chips: the number of associated-task chips is
    [associated_task_cnt], and a missing field shows no chips and counts
    0. *)
Theorem chips_are_trimmed_and_counted :
  (forall s : string,
      Forall (fun tok => tok <> "" /\ PyStr.strip tok = tok) (parse_tokens s)) /\
  (forall source : option (list CsvRow),
      Forall (fun r => associated_task_cnt r =
                       match task_chips r with
                       | Some chips => length chips
                       | None => 0
                       end)
             (load_data source)).
Proof.
  split.
  - intros s. apply List.Forall_forall. intros tok Hin.
    apply parse_tokens_In in Hin as (piece & _ & E & Hne).
    split; [exact Hne|]. rewrite <- E. apply strip_idempotent.
  - intros [rows|]; simpl; [|constructor].
    induction rows as [|r rows IH]; simpl; constructor; [|exact IH].
    unfold task_chips, derive, token_count, parse_tokens. simpl.
    destruct (csv_associated_tasks r); simpl; [|reflexivity].
    now rewrite length_map.
Qed.

(** X2.  When every comma-separated piece of a record's modality field is
    already trimmed and the selected tags are trimmed and non-empty, the
    mask of line 169 is exactly "some parsed token of the record is a
    selected tag". *)
Theorem modality_mask_on_trimmed_data
    (sels : list string) (r : DatasetRecord) (x : string) :
  modalities r = Some x ->
  Forall (fun piece => PyStr.strip piece = piece) (PyStr.split_comma x) ->
  Forall (fun m => PyStr.strip m = m /\ m <> "") sels ->
  modality_mask sels r = token_match sels (modalities r).
Proof.
  intros Hx Hpieces Hsels. rewrite List.Forall_forall in Hpieces, Hsels.
  apply Bool.eq_iff_eq_true. rewrite modality_mask_spec, Hx.
  unfold token_match, PyStr.mem. rewrite existsb_exists. split.
  - intros (x' & m & [= <-] & Hm & Hin).
    destruct (Hsels m Hm) as [Hs Hne]. rewrite Hs in Hin.
    exists m. split.
    + apply parse_tokens_In. exists m. auto.
    + apply existsb_exists. exists m. split; [exact Hm | apply String.eqb_refl].
  - intros (tok & Htok & Hsel).
    apply existsb_exists in Hsel as (m & Hm & E). apply String.eqb_eq in E. subst m.
    apply parse_tokens_In in Htok as (piece & Hin & E & _).
    rewrite (Hpieces piece Hin) in E. subst piece.
    exists x, tok. destruct (Hsels tok Hm) as [Hs _]. rewrite Hs. auto.
Qed.

Lemma modality_mask_on_trimmed_data_witness :
  modality_mask ["Image"; "Audio"] (sample "x" "QA" (Some "Text,Image") None)
  = token_match ["Image"; "Audio"]
                (modalities (sample "x" "QA" (Some "Text,Image") None)).
Proof.
  apply (modality_mask_on_trimmed_data
           ["Image"; "Audio"] (sample "x" "QA" (Some "Text,Image") None)
           "Text,Image").
  - reflexivity.
  - repeat constructor.
  - repeat constructor; discriminate.
Defined.

End Tokens.

(** ** The options of the select boxes *)

Section Options.

Lemma ascii_compare_lt_trans (a b c : ascii) :
  Ascii.compare a b = Lt -> Ascii.compare b c = Lt -> Ascii.compare a c = Lt.
Proof.
  unfold Ascii.compare. rewrite !N.compare_lt_iff. lia.
Qed.

Lemma compare_lt_trans (s1 s2 s3 : string) :
  String.compare s1 s2 = Lt -> String.compare s2 s3 = Lt ->
  String.compare s1 s3 = Lt.
Proof.
  revert s2 s3. induction s1 as [|a s1 IH]; intros [|b s2] [|c s3]; simpl;
    try discriminate; try reflexivity.
  destruct (Ascii.compare a b) eqn:E1; try discriminate;
    destruct (Ascii.compare b c) eqn:E2; try discriminate; intros H1 H2.
  - apply Ascii.compare_eq_iff in E1, E2. subst b c.
    assert (Ascii.compare a a = Eq) as -> by (unfold Ascii.compare; apply N.compare_refl).
    now apply (IH s2).
  - apply Ascii.compare_eq_iff in E1. subst b. now rewrite E2.
  - apply Ascii.compare_eq_iff in E2. subst c. now rewrite E1.
  - now rewrite (ascii_compare_lt_trans a b c E1 E2).
Qed.

Lemma compare_refl (s : string) : String.compare s s = Eq.
Proof.
  induction s as [|a s IH]; simpl; [reflexivity|].
  assert (Ascii.compare a a = Eq) as -> by (unfold Ascii.compare; apply N.compare_refl).
  exact IH.
Qed.

Lemma compare_gt_lt (x h : string) :
  String.compare x h = Gt -> String.compare h x = Lt.
Proof. intros H. rewrite String.compare_antisym, H. reflexivity. Qed.

Lemma insert_sorted_In (x y : string) (l : list string) :
  In y (insert_sorted x l) <-> y = x \/ In y l.
Proof.
  induction l as [|h t IH]; simpl; [intuition|].
  destruct (String.compare x h) eqn:E; simpl.
  - apply String.compare_eq_iff in E. subst h. intuition.
  - intuition.
  - rewrite IH. intuition.
Qed.

Lemma insert_sorted_sorted (x : string) (l : list string) :
  Sorted.StronglySorted str_lt l -> Sorted.StronglySorted str_lt (insert_sorted x l).
Proof.
  induction 1 as [|h t Hs IH Hh]; simpl; [repeat constructor|].
  destruct (String.compare x h) eqn:E.
  - now constructor.
  - constructor; [now constructor|]. constructor; [exact E|].
    rewrite List.Forall_forall in *. intros y Hy.
    exact (compare_lt_trans x h y E (Hh y Hy)).
  - constructor; [exact IH|]. rewrite List.Forall_forall in *.
    intros y Hy. apply insert_sorted_In in Hy as [->|Hy];
      [now apply compare_gt_lt | now apply Hh].
Qed.

Lemma sorted_set_sorted (xs : list string) :
  Sorted.StronglySorted str_lt (sorted_set xs).
Proof.
  induction xs as [|x xs IH]; simpl; [constructor|].
  now apply insert_sorted_sorted.
Qed.

Lemma sorted_set_In (xs : list string) (y : string) :
  In y (sorted_set xs) <-> In y xs.
Proof.
  induction xs as [|x xs IH]; simpl; [reflexivity|].
  rewrite insert_sorted_In, IH. intuition.
Qed.

Lemma strictly_sorted_NoDup (l : list string) :
  Sorted.StronglySorted str_lt l -> List.NoDup l.
Proof.
  induction 1 as [|h t Hs IH Hh]; constructor; [|exact IH].
  intros Hin. rewrite List.Forall_forall in Hh.
  specialize (Hh h Hin). unfold str_lt in Hh. rewrite compare_refl in Hh. discriminate.
Qed.

Lemma all_modalities_In (df : table) (tok : string) :
  In tok (all_modalities df) <->
  exists r mods, In r df /\ modalities r = Some mods /\ In tok (parse_tokens mods).
Proof.
  unfold all_modalities. rewrite in_flat_map. split.
  - intros (r & Hr & Hin). destruct (modalities r) as [mods|] eqn:E; [|destruct Hin].
    eauto.
  - intros (r & mods & Hr & E & Hin). exists r. split; [exact Hr|]. now rewrite E.
Qed.

(** X3.  The modality multiselect offers exactly the parsed tokens of the
    rows that have modality data: each once, in strictly ascending order
    of code points, every option non-empty and without surrounding white
    space. *)
Theorem unique_modalities_are_the_parsed_tokens (df : table) :
  Sorted.StronglySorted str_lt (unique_modalities df) /\
  List.NoDup (unique_modalities df) /\
  (forall tok,
      In tok (unique_modalities df) <->
      exists r mods,
        In r df /\ modalities r = Some mods /\ In tok (parse_tokens mods)) /\
  Forall (fun tok => tok <> "" /\ PyStr.strip tok = tok) (unique_modalities df).
Proof.
  unfold unique_modalities.
  pose proof (sorted_set_sorted (all_modalities df)) as Hs.
  split; [exact Hs|]. split; [now apply strictly_sorted_NoDup|].
  split.
  - intros tok. now rewrite sorted_set_In, all_modalities_In.
  - apply List.Forall_forall. intros tok Hin.
    apply sorted_set_In, all_modalities_In in Hin as (r & mods & _ & _ & Hin).
    apply parse_tokens_In in Hin as (piece & _ & E & Hne).
    split; [exact Hne|]. rewrite <- E. apply strip_idempotent.
Qed.

Lemma prefix_cons (a b : ascii) (s1 s2 : string) :
  String.prefix (String a s1) (String b s2) =
  if Ascii.eqb a b then String.prefix s1 s2 else false.
Proof.
  cbn [String.prefix].
  destruct (ascii_dec a b) as [->|Hne].
  - now rewrite Ascii.eqb_refl.
  - apply Ascii.eqb_neq in Hne. now rewrite Hne.
Qed.

Lemma prefix_paren (c : ascii) (r : string) :
  String.prefix " (" (String c r) =
  Ascii.eqb " " c && match r with
                     | String d _ => Ascii.eqb "(" d
                     | EmptyString => false
                     end.
Proof.
  rewrite prefix_cons. destruct (Ascii.eqb " " c); [|reflexivity].
  destruct r as [|d r']; [reflexivity|]. rewrite prefix_cons.
  destruct (Ascii.eqb "(" d); [now destruct r' | reflexivity].
Qed.

Lemma occurs_cons (sep : string) (c : ascii) (r : string) :
  occurs sep (String c r) = String.prefix sep (String c r) || occurs sep r.
Proof. reflexivity. Qed.

Lemma split_first_cons (sep : string) (c : ascii) (r : string) :
  split_first sep (String c r) =
  if String.prefix sep (String c r) then EmptyString
  else String c (split_first sep r).
Proof. reflexivity. Qed.

Lemma append_cons (c : ascii) (r rest : string) :
  String.append (String c r) rest = String c (String.append r rest).
Proof. reflexivity. Qed.

Lemma prefix_paren_app (t rest : string) :
  String.prefix " (" t = true -> String.prefix " (" (String.append t rest) = true.
Proof.
  destruct t as [|c r]; [intros H; discriminate H|].
  rewrite append_cons, !prefix_paren.
  destruct r as [|d r']; [now rewrite andb_false_r | now rewrite append_cons].
Qed.

Lemma split_first_no_paren (t rest : string) :
  occurs " (" t = false ->
  split_first " (" (String.append t (String.append " (" rest)) = t.
Proof.
  induction t as [|c r IH]; intros H.
  { cbn [String.append]. now rewrite split_first_cons, prefix_paren. }
  rewrite occurs_cons in H. apply orb_false_iff in H as [Hp Ho].
  rewrite append_cons, split_first_cons.
  assert (Hq : String.prefix " (" (String c (String.append r (String.append " (" rest))) = false).
  { rewrite prefix_paren in Hp |- *.
    destruct r as [|d r']; [now rewrite andb_false_r | now rewrite append_cons]. }
  rewrite Hq. now rewrite (IH Ho).
Qed.

Lemma split_first_with_paren (t rest : string) :
  occurs " (" t = true ->
  split_first " (" (String.append t rest) = split_first " (" t.
Proof.
  induction t as [|c r IH]; intros H; [discriminate H|].
  rewrite occurs_cons in H.
  rewrite append_cons, !split_first_cons.
  destruct (String.prefix " (" (String c r)) eqn:Hp.
  - pose proof (prefix_paren_app (String c r) rest Hp) as Hq.
    rewrite append_cons in Hq. now rewrite Hq.
  - rewrite orb_false_l in H.
    assert (Hq : String.prefix " (" (String c (String.append r rest)) = false).
    { rewrite prefix_paren in Hp |- *.
      destruct r as [|d r']; [discriminate H | now rewrite append_cons]. }
    rewrite Hq. now rewrite (IH H).
Qed.

Lemma split_first_shorter (t : string) :
  occurs " (" t = true ->
  (String.length (split_first " (" t) < String.length t)%nat.
Proof.
  induction t as [|c r IH]; intros H; [discriminate H|].
  rewrite occurs_cons in H. rewrite split_first_cons.
  destruct (String.prefix " (" (String c r)) eqn:Hp.
  - cbn [String.length]. lia.
  - rewrite orb_false_l in H. specialize (IH H). cbn [String.length]. lia.
Qed.

Lemma task_option_not_All (t : string) (n : nat) :
  String.eqb (task_option t n) "All" = false.
Proof.
  apply String.eqb_neq. unfold task_option. intros H.
  destruct t as [|a [|b [|c [|d t']]]]; simpl in H; discriminate H.
Qed.

Lemma selected_task_round_trip (t : string) (n : nat) :
  occurs " (" t = false -> selected_task_of (task_option t n) = t.
Proof.
  intros H. unfold selected_task_of. rewrite task_option_not_All.
  unfold task_option. now apply split_first_no_paren.
Qed.

(** X4.  Reading the task back from its option text [f"{task} ({count})"]
    (line 137) returns the task exactly when the task name does not
    itself contain the separator [" ("]; a task name that contains it is
    cut at its first occurrence. *)
Theorem selected_task_round_trip_iff (t : string) (n : nat) :
  (selected_task_of (task_option t n) = t <-> occurs " (" t = false) /\
  (occurs " (" t = true ->
   selected_task_of (task_option t n) = split_first " (" t).
Proof.
  assert (Hcut : occurs " (" t = true ->
                 selected_task_of (task_option t n) = split_first " (" t).
  { intros H. unfold selected_task_of. rewrite task_option_not_All.
    unfold task_option. now apply split_first_with_paren. }
  split; [|exact Hcut]. split.
  - intros E. destruct (occurs " (" t) eqn:H; [|reflexivity].
    rewrite (Hcut eq_refl) in E.
    pose proof (split_first_shorter t H) as Hlt. rewrite E in Hlt. lia.
  - apply selected_task_round_trip.
Qed.

Lemma selected_task_round_trip_iff_witness :
  selected_task_of (task_option "QA (open)" 3) = split_first " (" "QA (open)".
Proof.
  apply (proj2 (selected_task_round_trip_iff "QA (open)" 3)). reflexivity.
Defined.

Example selected_task_cut : selected_task_of (task_option "QA (open)" 3) = "QA".
Proof. reflexivity. Qed.

(** X5.  Choosing the option of a task whose name has no [" ("] yields,
    from the task filter, exactly the rows of that task, and their number
    is the count shown in the option; the one exception is a task named
    "All", whose option removes the constraint. *)
Theorem task_option_selects_its_rows (df : table) (t : string) :
  occurs " (" t = false ->
  let sel := selected_task_of (task_option t (task_count df t)) in
  (t <> "All" ->
   task_filter sel df = List.filter (fun r => String.eqb (task r) t) df /\
   length (task_filter sel df) = task_count df t /\
   forall r, In r (task_filter sel df) <-> In r df /\ task r = t) /\
  (t = "All" -> task_filter sel df = df).
Proof.
  intros H sel. unfold sel. rewrite (selected_task_round_trip t _ H).
  unfold task_filter. split.
  - intros Hne. apply String.eqb_neq in Hne. rewrite Hne.
    split; [reflexivity|]. split; [reflexivity|].
    intros r. rewrite filter_In. unfold task_mask. now rewrite String.eqb_eq.
  - intros ->. reflexivity.
Qed.

Lemma task_option_selects_its_rows_witness :
  let sel := selected_task_of (task_option "QA" (task_count sample_table "QA")) in
  ("QA" <> "All" ->
   task_filter sel sample_table
     = List.filter (fun r => String.eqb (task r) "QA") sample_table /\
   length (task_filter sel sample_table) = task_count sample_table "QA" /\
   forall r, In r (task_filter sel sample_table) <-> In r sample_table /\ task r = "QA") /\
  ("QA" = "All" -> task_filter sel sample_table = sample_table).
Proof. apply (task_option_selects_its_rows sample_table "QA"). reflexivity. Defined.

End Options.

(** ** The filter, row by row *)

Section FilterRows.
Local Open Scope Z_scope.

Lemma fold_min_attained (ys : list Z) (a : Z) :
  In (fold_left Z.min ys a) (a :: ys).
Proof.
  revert a. induction ys as [|z ys IH]; intros a; simpl; [now left|].
  destruct (IH (Z.min a z)) as [H|H]; [|now right; right].
  rewrite <- H. destruct (Z.min_spec a z) as [[_ ->]|[_ ->]]; auto.
Qed.

Lemma fold_max_attained (ys : list Z) (a : Z) :
  In (fold_left Z.max ys a) (a :: ys).
Proof.
  revert a. induction ys as [|z ys IH]; intros a; simpl; [now left|].
  destruct (IH (Z.max a z)) as [H|H]; [|now right; right].
  rewrite <- H. destruct (Z.max_spec a z) as [[_ ->]|[_ ->]]; auto.
Qed.

Lemma years_nil (df : table) :
  years df = [] <-> Forall (fun r => year_published r = None) df.
Proof.
  unfold years. induction df as [|r rs IH]; simpl.
  - split; [constructor | reflexivity].
  - destruct (year_published r) as [y|] eqn:E; simpl.
    + split; [discriminate|]. intros H. inversion H; subst. congruence.
    + rewrite IH. split; [now constructor | intros H; now inversion H].
Qed.

(** X6.  The slider bounds of lines 151-152 are years of the table that
    enclose every year of the table; they exist exactly when some row has
    a year.  When no row has one, [int(nan)] raises [ValueError] and
    [create_filter_panel] raises it whatever the widgets hold. *)
Theorem year_bounds_enclose_all_years (df : table) :
  match year_bounds df with
  | Ok (lo, hi) =>
      In lo (years df) /\ In hi (years df) /\
      Forall (fun y => lo <= y <= hi) (years df) /\
      ~ Forall (fun r => year_published r = None) df
  | Raise e =>
      e = ValueError /\
      Forall (fun r => year_published r = None) df /\
      forall c, create_filter_panel df c = Raise ValueError
  | Outside => False
  end.
Proof.
  unfold create_filter_panel, year_bounds.
  destruct (years df) as [|y ys] eqn:E.
  - split; [reflexivity|]. split; [now apply years_nil | reflexivity].
  - split; [apply fold_min_attained|]. split; [apply fold_max_attained|].
    split.
    + apply List.Forall_forall. intros z Hz.
      destruct (fold_min_le ys y) as [Hm1 Hm2].
      destruct (fold_max_ge ys y) as [HM1 HM2].
      destruct Hz as [<-|Hz]; [lia|].
      specialize (Hm2 z Hz). specialize (HM2 z Hz). lia.
    + intros H. apply years_nil in H. congruence.
Qed.

Lemma filter_all_true {A : Type} (f : A -> bool) (l : list A) :
  (forall x, In x l -> f x = true) -> List.filter f l = l.
Proof.
  induction l as [|x l IH]; intros H; simpl; [reflexivity|].
  rewrite (H x (or_introl eq_refl)), IH; [reflexivity|].
  intros y Hy. apply H. now right.
Qed.

(** X7.  With the widgets untouched the filter returns exactly the rows
    that have a year, in their order; a table in which every row has a
    year comes back unchanged. *)
Theorem default_filter_returns_dated_rows (df : table) (c : FilterCriteria) :
  default_criteria df = Ok c ->
  create_filter_panel df c = Ok (List.filter dated df) /\
  (Forall (fun r => dated r = true) df -> create_filter_panel df c = Ok df).
Proof.
  intros H. pose proof (default_filter_keeps_dated df c H) as E.
  split; [exact E|]. intros Hall. rewrite E. f_equal.
  apply filter_all_true. now apply List.Forall_forall.
Qed.

Lemma default_filter_returns_dated_rows_witness :
  create_filter_panel [row_2019; row_2021] (all_criteria (2019, 2021))
    = Ok (List.filter dated [row_2019; row_2021]) /\
  (Forall (fun r => dated r = true) [row_2019; row_2021] ->
   create_filter_panel [row_2019; row_2021] (all_criteria (2019, 2021))
     = Ok [row_2019; row_2021]).
Proof.
  apply (default_filter_returns_dated_rows
           [row_2019; row_2021] (all_criteria (2019, 2021))).
  reflexivity.
Defined.

Lemma task_filter_In (sel : string) (df : table) (r : DatasetRecord) :
  In r (task_filter sel df) <-> In r df /\ (sel = "All"%string \/ task r = sel).
Proof.
  unfold task_filter. destruct (String.eqb_spec sel "All") as [->|Hne].
  - intuition.
  - rewrite filter_In. unfold task_mask. rewrite String.eqb_eq. intuition.
Qed.

Lemma area_filter_In (sel : string) (df : table) (r : DatasetRecord) :
  In r (area_filter sel df) <->
  In r df /\ (sel = "All"%string \/ area r = Some sel).
Proof.
  unfold area_filter. destruct (String.eqb_spec sel "All") as [->|Hne].
  - intuition.
  - rewrite filter_In. unfold area_mask. destruct (area r) as [a|].
    + rewrite String.eqb_eq. split.
      * intros [H ->]. auto.
      * intros [H [E|[= ->]]]; [contradiction | auto].
    + split; [intros [_ H]; discriminate|].
      intros [_ [E|E]]; [contradiction | discriminate].
Qed.

Lemma modality_filter_In (sels : list string) (df : table) (r : DatasetRecord) :
  In r (modality_filter sels df) <->
  In r df /\ (sels = [] \/ modality_mask sels r = true).
Proof.
  unfold modality_filter. destruct sels as [|m ms].
  - intuition.
  - rewrite filter_In. intuition discriminate.
Qed.

Lemma search_filter_In (term : string) (df out : table) (r : DatasetRecord) :
  plain term = true ->
  search_filter term df = Ok out ->
  (In r out <->
   In r df /\ (term = ""%string \/ ci_contains (dataset_id r) term)).
Proof.
  intros Hp. unfold search_filter, str_contains.
  destruct term as [|ch t]; cbn [PyStr.truthy].
  - intros [= <-]. intuition.
  - rewrite (compile_plain _ Hp). cbn [bind].
    rewrite map_map, select_mask_map. intros E.
    assert (Hout : out = List.filter
                     (fun x => PyRe.search
                                 (map PyRe.Lit (list_ascii_of_string (String ch t)))
                                 (dataset_id x)) df) by congruence.
    rewrite Hout, filter_In, search_literal. intuition discriminate.
Qed.

(** X8.  The stages of the filter combine as a conjunction: when the
    search term has no special character, a row is in the result exactly
    when it is a row of the table and satisfies the task, area, modality,
    year and search constraints that are active. *)
Theorem filter_keeps_rows_that_pass
    (df out : table) (c : FilterCriteria) (r : DatasetRecord) :
  plain (search_term c) = true ->
  create_filter_panel df c = Ok out ->
  (In r out <-> In r df /\ row_passes c r).
Proof.
  intros Hp H. unfold create_filter_panel in H.
  destruct (year_bounds df); simpl in H; try discriminate.
  unfold filtering_logic in H.
  rewrite (search_filter_In _ _ _ r Hp H).
  unfold year_filter. rewrite filter_In.
  rewrite modality_filter_In, area_filter_In, task_filter_In.
  destruct (year_range c) as [lo hi] eqn:Er.
  rewrite year_mask_spec. unfold row_passes. rewrite Er. simpl. tauto.
Qed.

Lemma filter_keeps_rows_that_pass_witness :
  In row_2021 [row_2021] <->
  In row_2021 sample_table /\ row_passes (all_criteria (2021, 2021)) row_2021.
Proof.
  apply (filter_keeps_rows_that_pass
           sample_table [row_2021] (all_criteria (2021, 2021)) row_2021);
    reflexivity.
Defined.

Lemma search_filter_again (term : string) (df out : table) :
  search_filter term df = Ok out -> search_filter term out = Ok out.
Proof.
  unfold search_filter, str_contains.
  destruct (PyStr.truthy term); [|now intros [= <-]].
  destruct (PyRe.compile term) as [atoms| |]; cbn [bind]; try discriminate.
  rewrite map_map, select_mask_map. intros [= <-].
  rewrite map_map, select_mask_map. f_equal.
  apply filter_all_true. intros x Hx. now apply filter_In in Hx.
Qed.

(** X9.  Filtering is idempotent: applying the same criteria to a
    filtered table returns it unchanged, for every search term that the
    first pass accepted.  The whole function agrees unless the filtered
    table is empty, in which case the year slider has no bounds and
    [ValueError] is raised. *)
Theorem filtering_twice_changes_nothing
    (df out : table) (c : FilterCriteria) :
  filtering_logic c df = Ok out ->
  filtering_logic c out = Ok out /\
  (out <> [] -> create_filter_panel out c = Ok out) /\
  (out = [] -> create_filter_panel out c = Raise ValueError).
Proof.
  intros H.
  assert (Hout : filtering_logic c out = Ok out).
  { unfold filtering_logic in *.
    pose proof (search_filter_sublist _ _ _ H) as Hsub.
    assert (Hin : forall r, In r out ->
              In r (year_filter (year_range c)
                      (modality_filter (selected_modalities c)
                         (area_filter (selected_area c)
                            (task_filter (selected_task c) df)))))
      by (intros r Hr; eapply sublist_In; eauto).
    assert (E1 : task_filter (selected_task c) out = out).
    { unfold task_filter. destruct (String.eqb _ "All") eqn:E; [reflexivity|].
      apply filter_all_true. intros r Hr. apply Hin in Hr.
      apply filter_In in Hr as [Hr _]. apply modality_filter_In in Hr as [Hr _].
      apply area_filter_In in Hr as [Hr _]. unfold task_filter in Hr.
      rewrite E in Hr. now apply filter_In in Hr. }
    assert (E2 : area_filter (selected_area c) out = out).
    { unfold area_filter. destruct (String.eqb _ "All") eqn:E; [reflexivity|].
      apply filter_all_true. intros r Hr. apply Hin in Hr.
      apply filter_In in Hr as [Hr _]. apply modality_filter_In in Hr as [Hr _].
      unfold area_filter in Hr. rewrite E in Hr. now apply filter_In in Hr. }
    assert (E3 : modality_filter (selected_modalities c) out = out).
    { unfold modality_filter. destruct (selected_modalities c) as [|m ms] eqn:E;
        [reflexivity|].
      apply filter_all_true. intros r Hr. apply Hin in Hr.
      apply filter_In in Hr as [Hr _]. unfold modality_filter in Hr.
      try rewrite E in Hr. now apply filter_In in Hr. }
    assert (E4 : year_filter (year_range c) out = out).
    { apply filter_all_true. intros r Hr. apply Hin in Hr.
      now apply filter_In in Hr. }
    rewrite E1, E2, E3, E4. eapply search_filter_again; eauto. }
  split; [exact Hout|]. unfold create_filter_panel, year_bounds. split.
  - intros Hne. destruct (years out) as [|y ys] eqn:Ey; [|exact Hout].
    exfalso. apply years_nil in Ey.
    destruct out as [|r rs]; [congruence|].
    inversion Ey as [|? ? Hr _]; subst.
    unfold filtering_logic in H. apply search_filter_sublist in H.
    assert (Hin : In r (year_filter (year_range c)
                      (modality_filter (selected_modalities c)
                         (area_filter (selected_area c)
                            (task_filter (selected_task c) df)))))
      by (eapply sublist_In; eauto; now left).
    apply filter_In in Hin as [_ Hm]. unfold year_mask in Hm.
    rewrite Hr in Hm. discriminate.
  - intros ->. reflexivity.
Qed.

Lemma filtering_twice_changes_nothing_witness :
  filtering_logic (all_criteria (2021, 2021)) [row_2021] = Ok [row_2021] /\
  ([row_2021] <> [] ->
   create_filter_panel [row_2021] (all_criteria (2021, 2021)) = Ok [row_2021]) /\
  ([row_2021] = [] ->
   create_filter_panel [row_2021] (all_criteria (2021, 2021)) = Raise ValueError).
Proof.
  apply (filtering_twice_changes_nothing
           sample_table [row_2021] (all_criteria (2021, 2021))).
  reflexivity.
Defined.

End FilterRows.

(** ** Pages *)

Section Pages.
Local Open Scope Z_scope.

Lemma py_range_In (a b p : Z) : In p (py_range a b) <-> a <= p < b.
Proof.
  unfold py_range. rewrite in_map_iff. split.
  - intros (i & <- & Hi). apply in_seq in Hi. lia.
  - intros H. exists (Z.to_nat (p - a)). split; [lia|].
    apply in_seq. lia.
Qed.

Lemma py_range_length (a b : Z) : length (py_range a b) = Z.to_nat (b - a).
Proof. unfold py_range. now rewrite length_map, length_seq. Qed.

Lemma total_pages_positive (n : nat) (ps : Z) :
  0 < ps -> (0 < n)%nat -> 1 <= ceil_div (Z.of_nat n) ps.
Proof.
  intros Hps Hn. pose proof (ceil_div_least (Z.of_nat n) ps Hps). nia.
Qed.

Lemma page_at_chunk (l : table) (ps k : Z) :
  0 < ps -> 1 <= k <= ceil_div (Z.of_nat (length l)) ps ->
  page_at l ps k =
  firstn (Z.to_nat ps) (skipn (Z.to_nat ((k - 1) * ps)) l).
Proof.
  intros Hps Hk. unfold page_at, paginate.
  destruct (Z.eqb_spec ps 0) as [?|_]; [lia|].
  destruct (Z.gtb_spec k (ceil_div (Z.of_nat (length l)) ps)) as [?|_]; [lia|].
  unfold page_data, iloc_slice, slice_indices, clamp_index.
  cbn [start_idx end_idx].
  pose proof (ceil_div_least (Z.of_nat (length l)) ps Hps) as Hc.
  assert (Hs : 0 <= (k - 1) * ps < Z.of_nat (length l)) by nia.
  destruct (Z.ltb_spec ((k - 1) * ps) 0) as [?|_]; [lia|].
  destruct (Z.ltb_spec ((k - 1) * ps + ps) 0) as [?|_]; [lia|].
  rewrite (Z.min_l ((k - 1) * ps)) by lia.
  destruct (Z.le_gt_cases ((k - 1) * ps + ps) (Z.of_nat (length l))) as [Hle|Hgt].
  - rewrite Z.min_l by lia. f_equal. lia.
  - rewrite Z.min_r by lia.
    rewrite !firstn_all2; [reflexivity | |]; rewrite length_skipn; lia.
Qed.

Lemma chunks_concat {A : Type} (p T : nat) (l : list A) :
  (length l <= T * p)%nat ->
  concat (map (fun i => firstn p (skipn (i * p) l)) (seq 0 T)) = l.
Proof.
  revert l. induction T as [|T IH]; intros l Hl.
  - destruct l; [reflexivity | simpl in Hl; lia].
  - cbn [seq map concat]. rewrite <- seq_shift, map_map.
    rewrite (map_ext (fun i => firstn p (skipn (S i * p) l))
                     (fun i => firstn p (skipn (i * p) (skipn p l)))).
    + rewrite IH; [apply firstn_skipn|]. rewrite length_skipn. simpl in Hl. lia.
    + intros i. rewrite skipn_skipn. do 2 f_equal. simpl. lia.
Qed.

(** X10.  The pages partition the filtered table: for a positive page
    size, the rows of pages 1 to [total_pages], one after the other, are
    the filtered table; page [k] holds [min(page_size, rows left)] rows,
    so no page is empty and none exceeds the page size. *)
Theorem pages_partition_filtered_rows (filtered : table) (ps : Z) :
  0 < ps ->
  let tp := ceil_div (Z.of_nat (length filtered)) ps in
  concat (map (page_at filtered ps) (py_range 1 (tp + 1))) = filtered /\
  forall k, 1 <= k <= tp ->
    Z.of_nat (length (page_at filtered ps k))
      = Z.min ps (Z.of_nat (length filtered) - (k - 1) * ps) /\
    page_at filtered ps k <> [].
Proof.
  intros Hps tp.
  pose proof (ceil_div_least (Z.of_nat (length filtered)) ps Hps) as Hc.
  fold tp in Hc. split.
  - unfold py_range. rewrite map_map.
    replace (Z.to_nat (tp + 1 - 1)) with (Z.to_nat tp) by lia.
    rewrite (map_ext_in _ (fun i => firstn (Z.to_nat ps)
                                      (skipn (i * Z.to_nat ps) filtered))).
    + apply chunks_concat. nia.
    + intros i Hi. apply in_seq in Hi.
      rewrite page_at_chunk by (fold tp; lia). do 2 f_equal. nia.
  - intros k Hk. rewrite page_at_chunk by (fold tp; lia).
    assert (Hs : 0 <= (k - 1) * ps < Z.of_nat (length filtered)) by nia.
    assert (Hlen : Z.of_nat (length (firstn (Z.to_nat ps)
                     (skipn (Z.to_nat ((k - 1) * ps)) filtered)))
                   = Z.min ps (Z.of_nat (length filtered) - (k - 1) * ps)).
    { rewrite length_firstn, length_skipn. lia. }
    split; [exact Hlen|]. intros E. rewrite E in Hlen. simpl in Hlen. lia.
Qed.

Lemma pages_partition_filtered_rows_witness :
  let tp := ceil_div (Z.of_nat (length sample_table)) 2 in
  concat (map (page_at sample_table 2) (py_range 1 (tp + 1))) = sample_table /\
  forall k, 1 <= k <= tp ->
    Z.of_nat (length (page_at sample_table 2 k))
      = Z.min 2 (Z.of_nat (length sample_table) - (k - 1) * 2) /\
    page_at sample_table 2 k <> [].
Proof. apply (pages_partition_filtered_rows sample_table 2). lia. Defined.

Lemma displayed_pages_range (tp cur p : Z) :
  In (Some p) (displayed_pages tp cur) -> 1 <= p <= tp.
Proof.
  unfold displayed_pages. destruct (Z.leb_spec tp 7) as [Hle|Hgt].
  - rewrite in_map_iff. intros (q & [= ->] & Hq). apply py_range_In in Hq. lia.
  - rewrite !in_app_iff. intros [H|[H|[H|[H|H]]]].
    + destruct H as [[= <-]|[]]. lia.
    + destruct (cur >? 3); [destruct H as [H|[]]; discriminate H | destruct H].
    + apply in_map_iff in H as (q & [= ->] & Hq). apply py_range_In in Hq. lia.
    + destruct (cur <? tp - 2); [destruct H as [H|[]]; discriminate H | destruct H].
    + destruct (tp >? 1); [|destruct H]. destruct H as [[= <-]|[]]. lia.
Qed.

Lemma has_page_button_range (p tp cur : Z) :
  has_page_button p tp cur = true -> 1 <= p <= tp.
Proof.
  unfold has_page_button, page_buttons. intros H.
  apply existsb_exists in H as (e & He & Hq).
  destruct e as [q|]; [|discriminate]. apply Z.eqb_eq in Hq. subst q.
  apply (displayed_pages_range tp cur).
  eapply sublist_In; [apply sublist_take | exact He].
Qed.

Lemma early_click_range (ev : Click) (st st' : SessionState)
    (pd : table) (tp : Z) :
  1 <= current_page st <= tp ->
  early_click ev st pd = Some st' ->
  1 <= current_page st' <= tp.
Proof.
  intros Hr. destruct ev as [|id| |q|]; simpl; try discriminate.
  - destruct (PyStr.mem _ _); [intros [= <-]; exact Hr | discriminate].
  - destruct (Z.eqb_spec (current_page st) 1); [discriminate|].
    intros [= <-]. simpl. lia.
Qed.

Lemma late_click_range (ev : Click) (st st' : SessionState) (tp : Z) :
  1 <= current_page st <= tp ->
  late_click ev st tp = Some st' ->
  1 <= current_page st' <= tp.
Proof.
  intros Hr. destruct ev as [|id| |q|]; simpl; try discriminate.
  - destruct (has_page_button q tp (current_page st)) eqn:Hb; simpl;
      [|discriminate].
    destruct (negb _); [|discriminate]. intros [= <-]. simpl.
    now apply has_page_button_range in Hb.
  - destruct (Z.eqb_spec (current_page st) tp); [discriminate|].
    intros [= <-]. simpl. lia.
Qed.

(** X11.  The stored page stays a valid page: when the filter returns at
    least one row, the page size is positive and the stored page is at
    least 1, the page left in the session by a run of [main], whichever
    button was clicked, lies between 1 and [total_pages]. *)
Theorem current_page_stays_valid
    (df filtered : table) (w : Widgets) (st : SessionState) :
  create_filter_panel df (criteria w) = Ok filtered ->
  filtered <> [] ->
  0 < page_size w ->
  1 <= current_page st ->
  1 <= current_page (fst (main df w st))
    <= ceil_div (Z.of_nat (length filtered)) (page_size w).
Proof.
  intros Hf Hne Hps Hcur. unfold main.
  destruct df as [|r0 rs]; [discriminate Hf|]. rewrite Hf.
  unfold paginate. destruct (Z.eqb_spec (page_size w) 0) as [?|_]; [lia|].
  cbv zeta. cbn [total_pages effective_page].
  set (tp := ceil_div (Z.of_nat (length filtered)) (page_size w)).
  assert (Htp : 1 <= tp).
  { apply total_pages_positive; [exact Hps|]. destruct filtered; [congruence | simpl; lia]. }
  set (cur := if current_page st >? tp then 1 else current_page st).
  assert (Hc : 1 <= cur <= tp).
  { unfold cur. destruct (Z.gtb_spec (current_page st) tp); lia. }
  destruct (early_click _ _ _) as [st2|] eqn:E; cbn [fst].
  - eapply (early_click_range (click w) (with_page st cur) st2); [exact Hc | exact E].
  - destruct (st_columns _) as [[]|e|]; cbn [fst]; try exact Hc.
    destruct (late_click _ _ _) as [st3|] eqn:E'; cbn [fst]; [|exact Hc].
    eapply (late_click_range (click w) (with_page st cur) st3); [exact Hc | exact E'].
Qed.

Lemma current_page_stays_valid_witness :
  1 <= current_page
         (fst (main sample_table
                 {| criteria := all_criteria (2019, 2021);
                    page_size := 20; click := ClickNext |}
                 {| current_page := 5; selected_dataset_id := None |}))
    <= ceil_div (Z.of_nat (length [row_2019; row_2021])) 20.
Proof.
  apply (current_page_stays_valid
           sample_table [row_2019; row_2021]
           {| criteria := all_criteria (2019, 2021);
              page_size := 20; click := ClickNext |}
           {| current_page := 5; selected_dataset_id := None |}).
  - reflexivity.
  - discriminate.
  - simpl. lia.
  - simpl. lia.
Defined.

Lemma displayed_pages_length (tp cur : Z) :
  0 <= tp -> (length (displayed_pages tp cur) <= Z.to_nat (Z.min 7 tp))%nat.
Proof.
  intros Htp. unfold displayed_pages. destruct (Z.leb_spec tp 7) as [Hle|Hgt].
  - rewrite length_map, py_range_length. lia.
  - rewrite !length_app, length_map, py_range_length. cbn [length].
    destruct (cur >? 3), (cur <? tp - 2), (tp >? 1); cbn [length]; lia.
Qed.

(** X12.  The page-number row never loses an entry to the limit of 7
    columns, every button names a page between 1 and [total_pages], and
    for a valid current page the first page, the last page and the
    current page each have an entry. *)
Theorem page_buttons_cover_ends_and_current (tp cur : Z) :
  1 <= cur <= tp ->
  page_buttons tp cur = displayed_pages tp cur /\
  (forall p, In (Some p) (page_buttons tp cur) -> 1 <= p <= tp) /\
  In (Some 1) (page_buttons tp cur) /\
  In (Some tp) (page_buttons tp cur) /\
  In (Some cur) (page_buttons tp cur).
Proof.
  intros Hc.
  assert (E : page_buttons tp cur = displayed_pages tp cur).
  { unfold page_buttons. apply firstn_all2.
    apply displayed_pages_length. lia. }
  rewrite E. split; [reflexivity|].
  split; [intros p; apply displayed_pages_range|].
  unfold displayed_pages. destruct (Z.leb_spec tp 7) as [Hle|Hgt].
  - repeat split; apply in_map, py_range_In; lia.
  - assert (Hlast : (tp >? 1) = true) by (apply Z.gtb_lt; lia).
    rewrite Hlast. repeat split.
    + now left.
    + rewrite !in_app_iff. do 4 right. now left.
    + destruct (Z.eq_dec cur 1) as [->|H1]; [now left|].
      destruct (Z.eq_dec cur tp) as [->|H2];
        [rewrite !in_app_iff; do 4 right; now left|].
      rewrite !in_app_iff. right; right; left.
      apply in_map, py_range_In. lia.
Qed.

Lemma page_buttons_cover_ends_and_current_witness :
  page_buttons 12 6 = displayed_pages 12 6 /\
  (forall p, In (Some p) (page_buttons 12 6) -> 1 <= p <= 12) /\
  In (Some 1) (page_buttons 12 6) /\
  In (Some 12) (page_buttons 12 6) /\
  In (Some 6) (page_buttons 12 6).
Proof. apply (page_buttons_cover_ends_and_current 12 6). lia. Defined.

Example page_buttons_12_6 :
  page_buttons 12 6 = [Some 1; None; Some 5; Some 6; Some 7; None; Some 12].
Proof. reflexivity. Qed.

End Pages.

(** ** The yearly trend *)

Section Trend.
Local Open Scope Z_scope.

Lemma bump_keys (y k : Z) (l : list (Z * nat)) :
  In k (map fst (bump y l)) <-> k = y \/ In k (map fst l).
Proof.
  induction l as [|[k0 n] t IH]; simpl; [intuition|].
  destruct (Z.ltb_spec y k0); simpl; [intuition|].
  destruct (Z.eqb_spec y k0); simpl; [subst; intuition|].
  rewrite IH. intuition.
Qed.

Lemma bump_sorted (y : Z) (l : list (Z * nat)) :
  Sorted.StronglySorted Z.lt (map fst l) ->
  Sorted.StronglySorted Z.lt (map fst (bump y l)).
Proof.
  induction l as [|[k0 n] t IH]; simpl; intros H; [repeat constructor|].
  inversion H as [|? ? Hs Hh]; subst.
  destruct (Z.ltb_spec y k0); simpl.
  - constructor; [exact H|]. constructor; [exact H0|].
    rewrite List.Forall_forall in *. intros z Hz. specialize (Hh z Hz). lia.
  - destruct (Z.eqb_spec y k0); simpl; [now constructor|].
    constructor; [now apply IH|].
    rewrite List.Forall_forall in *. intros z Hz.
    apply bump_keys in Hz as [->|Hz]; [lia | now apply Hh].
Qed.

Lemma bump_sum (y : Z) (l : list (Z * nat)) :
  list_sum (map snd (bump y l)) = S (list_sum (map snd l)).
Proof.
  induction l as [|[k0 n] t IH]; simpl; [reflexivity|].
  destruct (y <? k0); simpl; [reflexivity|].
  destruct (y =? k0); simpl; [reflexivity|].
  rewrite IH. lia.
Qed.

Lemma years_length_dated (df : table) :
  (forall r, In r df -> dated r = true) -> length (years df) = length df.
Proof.
  unfold years. induction df as [|r rs IH]; intros H; simpl; [reflexivity|].
  pose proof (H r (or_introl eq_refl)) as Hr. unfold dated in Hr.
  destruct (year_published r); [|discriminate]. simpl.
  rewrite IH; [reflexivity|]. intros x Hx. apply H. now right.
Qed.

Lemma filtered_rows_dated (df out : table) (c : FilterCriteria) (r : DatasetRecord) :
  create_filter_panel df c = Ok out -> In r out -> dated r = true.
Proof.
  unfold create_filter_panel. destruct (year_bounds df); simpl; try discriminate.
  unfold filtering_logic. intros H Hr.
  apply search_filter_sublist in H.
  pose proof (sublist_In _ _ r H Hr) as Hin.
  apply filter_In in Hin as [_ Hm]. unfold year_mask in Hm. unfold dated.
  destruct (year_published r); [reflexivity | discriminate].
Qed.

(** X13.  The yearly trend lists each year of the table once, in strictly
    ascending order, and its counts add up to the number of rows that have
    a year; computed on a filtered table, as line 438 does, they add up to
    the number of filtered rows. *)
Theorem year_counts_total (df : table) :
  Sorted.StronglySorted Z.lt (map fst (year_counts df)) /\
  (forall y, In y (map fst (year_counts df)) <-> In y (years df)) /\
  list_sum (map snd (year_counts df)) = length (years df) /\
  (forall c out,
      create_filter_panel df c = Ok out ->
      list_sum (map snd (year_counts out)) = length out).
Proof.
  assert (Hsorted : forall ys,
             Sorted.StronglySorted Z.lt (map fst (fold_right bump [] ys))).
  { induction ys as [|y ys IH]; simpl; [constructor | now apply bump_sorted]. }
  assert (Hkeys : forall ys y,
             In y (map fst (fold_right bump [] ys)) <-> In y ys).
  { induction ys as [|z ys IH]; intros y; simpl; [reflexivity|].
    rewrite bump_keys, IH. intuition. }
  assert (Hsum : forall ys,
             list_sum (map snd (fold_right bump [] ys)) = length ys).
  { induction ys as [|y ys IH]; simpl; [reflexivity|].
    now rewrite bump_sum, IH. }
  unfold year_counts. split; [apply Hsorted|]. split; [apply Hkeys|].
  split; [apply Hsum|].
  intros c out H. rewrite Hsum. apply years_length_dated.
  intros r Hr. exact (filtered_rows_dated df out c r H Hr).
Qed.

Lemma year_counts_total_witness :
  list_sum (map snd (year_counts [row_2019; row_2021]))
  = length [row_2019; row_2021].
Proof.
  apply (proj2 (proj2 (proj2 (year_counts_total sample_table)))
           (all_criteria (2019, 2021))).
  reflexivity.
Defined.

Example year_counts_sample :
  year_counts (app sample_table [row_2019]) = [(2019, 2%nat); (2021, 1%nat)].
Proof. reflexivity. Qed.

End Trend.

(** ** Area options, row clicks and sessions *)

Section Session.

(** X14.  The research-area select box offers "All" followed by the
    distinct areas of the table in strictly ascending order; choosing an
    offered area other than "All" returns exactly the rows of that area,
    and at least one. *)
Theorem area_options_select_rows (df : table) :
  exists opts,
    areas df = "All" :: opts /\
    Sorted.StronglySorted str_lt opts /\
    (forall a, In a opts <-> exists r, In r df /\ area r = Some a) /\
    (forall a, In a opts -> a <> "All" ->
       area_filter a df <> [] /\
       forall r, In r (area_filter a df) <-> In r df /\ area r = Some a).
Proof.
  eexists. split; [reflexivity|]. split; [apply sorted_set_sorted|].
  assert (Hin : forall a,
             In a (sorted_set (flat_map (fun r => match area r with
                                                  | Some a => [a]
                                                  | None => []
                                                  end) df)) <->
             exists r, In r df /\ area r = Some a).
  { intros a. rewrite sorted_set_In, in_flat_map. split.
    - intros (r & Hr & Ha). exists r. split; [exact Hr|].
      destruct (area r) as [b|]; [|destruct Ha].
      destruct Ha as [->|[]]. reflexivity.
    - intros (r & Hr & Ha). exists r. split; [exact Hr|]. rewrite Ha. now left. }
  split; [exact Hin|].
  intros a Ha Hne. apply Hin in Ha as (r & Hr & Er).
  assert (Hiff : forall x, In x (area_filter a df) <-> In x df /\ area x = Some a).
  { intros x. rewrite area_filter_In. intuition. }
  split; [|exact Hiff].
  intros E. assert (Hx : In r (area_filter a df)) by (apply Hiff; auto).
  rewrite E in Hx. destruct Hx.
Qed.

Lemma page_rows_are_table_rows (df filtered : table) (c : FilterCriteria)
    (p : Page) (id : string) :
  create_filter_panel df c = Ok filtered ->
  In id (map dataset_id (page_data filtered p)) ->
  In id (map dataset_id df).
Proof.
  intros Hf Hid. unfold create_filter_panel in Hf.
  destruct (year_bounds df); simpl in Hf; try discriminate.
  apply filtering_logic_sublist in Hf.
  apply in_map_iff in Hid as (r & <- & Hr). apply in_map.
  eapply sublist_In; [exact Hf|].
  eapply sublist_In; [apply iloc_slice_sublist | exact Hr].
Qed.

(** X15.  A selection made through a row button can always be resolved:
    when a run ends in a rerun requested by a click on the button of [id],
    the session stores [id], [id] is the id of a row of the full table,
    and the lookup of line 421 returns a row with that id instead of
    raising [IndexError]. *)
Theorem clicked_row_is_resolvable
    (df : table) (w : Widgets) (st st' : SessionState) (id : string) :
  click w = ClickRow id ->
  main df w st = (st', Rerun) ->
  selected_dataset_id st' = Some id /\
  In id (map dataset_id df) /\
  exists r, selected_row df id = Ok r /\ In r df /\ dataset_id r = id.
Proof.
  intros Hc. unfold main.
  destruct df as [|r0 rs]; [discriminate|].
  destruct (create_filter_panel _ _) as [filtered|e|] eqn:Hf; try discriminate.
  destruct (paginate _ _ _) as [p|e|]; try discriminate.
  rewrite Hc.
  destruct (early_click _ _ _) as [st2|] eqn:E.
  - intros [= <-]. apply early_click_row in E as [Hsel Hid].
    pose proof (page_rows_are_table_rows _ _ _ _ _ Hf Hid) as Hin.
    split; [exact Hsel|]. split; [exact Hin|].
    now apply selected_row_present.
  - destruct (st_columns _) as [[]|e|]; try discriminate.
    cbn [late_click]. unfold show_selected. intros H. injection H as _ H.
    destruct (selection_truthy _); [|discriminate H].
    destruct (selected_row _ _); discriminate H.
Qed.

Lemma clicked_row_is_resolvable_witness :
  selected_dataset_id
    {| current_page := 1; selected_dataset_id := Some "coco" |} = Some "coco" /\
  In "coco" (map dataset_id sample_table) /\
  exists r, selected_row sample_table "coco" = Ok r /\
            In r sample_table /\ dataset_id r = "coco".
Proof.
  apply (clicked_row_is_resolvable
           sample_table
           {| criteria := all_criteria (2019, 2021)%Z;
              page_size := 20%Z; click := ClickRow "coco" |}
           initial_state
           {| current_page := 1; selected_dataset_id := Some "coco" |}
           "coco");
    reflexivity.
Defined.

Lemma main_keeps_selection (df : table) (w : Widgets) (st : SessionState) :
  is_row_click (click w) = false ->
  selected_dataset_id (fst (main df w st)) = selected_dataset_id st.
Proof.
  intros Hev. unfold main.
  destruct df as [|r0 rs]; [reflexivity|].
  destruct (create_filter_panel _ _) as [filtered|e|]; try reflexivity.
  destruct (paginate _ _ _) as [p|e|]; try reflexivity.
  assert (Hnot : forall id, click w <> ClickRow id)
    by (intros id Hid; rewrite Hid in Hev; discriminate).
  destruct (early_click _ _ _) as [st2|] eqn:E; cbn [fst].
  - now rewrite (early_click_keeps_selection _ _ _ _ Hnot E).
  - destruct (st_columns _) as [[]|e|]; cbn [fst]; try reflexivity.
    destruct (late_click _ _ _) as [st3|] eqn:E'; cbn [fst]; [|reflexivity].
    now rewrite (late_click_keeps_selection _ _ _ _ E').
Qed.

(** X16.  Over a whole session the selection changes only through row
    buttons: after any sequence of runs none of which was triggered by a
    row button (filter changes, page-size changes, page navigation, runs
    that crash), the stored selection is the one the session started
    with. *)
Theorem session_keeps_selection
    (df : table) (ws : list Widgets) (st : SessionState) :
  Forall (fun w => is_row_click (click w) = false) ws ->
  selected_dataset_id (run_session df ws st) = selected_dataset_id st.
Proof.
  intros H. revert st.
  induction H as [|w ws Hw _ IH]; intros st; simpl; [reflexivity|].
  rewrite IH. now apply main_keeps_selection.
Qed.

Lemma session_keeps_selection_witness :
  selected_dataset_id
    (run_session sample_table
       [ {| criteria := all_criteria (2021, 2021)%Z;
            page_size := 10%Z; click := NoClick |};
         {| criteria := all_criteria (2019, 2021)%Z;
            page_size := 10%Z; click := ClickNext |} ]
       squad_state)
  = selected_dataset_id squad_state.
Proof.
  apply (session_keeps_selection sample_table
           [ {| criteria := all_criteria (2021, 2021)%Z;
                page_size := 10%Z; click := NoClick |};
             {| criteria := all_criteria (2019, 2021)%Z;
                page_size := 10%Z; click := ClickNext |} ]
           squad_state).
  repeat constructor.
Defined.

End Session.

(** ** Letter case in the search box *)

Section SearchCase.

Lemma lower_char_idempotent (c : ascii) :
  PyStr.lower_char (PyStr.lower_char c) = PyStr.lower_char c.
Proof. destruct c as [[] [] [] [] [] [] [] []]; reflexivity. Qed.

Lemma lower_char_not_special (c : ascii) :
  PyRe.is_special c = false -> PyRe.is_special (PyStr.lower_char c) = false.
Proof. destruct c as [[] [] [] [] [] [] [] []]; intros H; (exact H || reflexivity). Qed.

Lemma lower_idempotent (s : string) : PyStr.lower (PyStr.lower s) = PyStr.lower s.
Proof.
  induction s as [|c r IH]; simpl; [reflexivity|].
  now rewrite lower_char_idempotent, IH.
Qed.

Lemma plain_lower (s : string) : plain s = true -> plain (PyStr.lower s) = true.
Proof.
  induction s as [|c r IH]; intros H; [reflexivity|].
  apply plain_cons in H as [Hc Hr].
  unfold plain. simpl. rewrite (lower_char_not_special c Hc). simpl.
  exact (IH Hr).
Qed.

Lemma ci_contains_lower (hay needle : string) :
  ci_contains hay (PyStr.lower needle) <-> ci_contains hay needle.
Proof. unfold ci_contains. now rewrite lower_idempotent. Qed.

Lemma filter_ext_bool {A : Type} (f g : A -> bool) (l : list A) :
  (forall x, f x = true <-> g x = true) -> List.filter f l = List.filter g l.
Proof.
  intros H. induction l as [|x l IH]; simpl; [reflexivity|].
  rewrite IH. destruct (f x) eqn:Ef, (g x) eqn:Eg; try reflexivity.
  - apply H in Ef. congruence.
  - apply H in Eg. congruence.
Qed.

(** X17.  For a search term without special characters the letter case
    of the term does not matter ([case=False]): the term and its
    lower-case form keep the same rows. *)
Theorem search_ignores_case_of_term (term : string) (df : table) :
  plain term = true ->
  search_filter (PyStr.lower term) df = search_filter term df.
Proof.
  intros Hp. unfold search_filter, str_contains.
  destruct term as [|c t]; [reflexivity|].
  change (PyStr.lower (String c t))
    with (String (PyStr.lower_char c) (PyStr.lower t)) at 1.
  cbn [PyStr.truthy].
  change (String (PyStr.lower_char c) (PyStr.lower t))
    with (PyStr.lower (String c t)).
  rewrite (compile_plain _ Hp), (compile_plain _ (plain_lower _ Hp)).
  cbn [bind]. rewrite !map_map, !select_mask_map. f_equal.
  apply filter_ext_bool. intros r.
  now rewrite !search_literal, ci_contains_lower.
Qed.

Lemma search_ignores_case_of_term_witness :
  search_filter (PyStr.lower "SQuAD") sample_table
  = search_filter "SQuAD" sample_table.
Proof. apply (search_ignores_case_of_term "SQuAD" sample_table). reflexivity. Defined.

End SearchCase.

Lemma area_options_select_rows_witness :
  exists opts,
    areas sample_table = "All" :: opts /\
    Sorted.StronglySorted str_lt opts /\
    (forall a, In a opts <-> exists r, In r sample_table /\ area r = Some a) /\
    (forall a, In a opts -> a <> "All" ->
       area_filter a sample_table <> [] /\
       forall r, In r (area_filter a sample_table)
                 <-> In r sample_table /\ area r = Some a).
Proof. exact (area_options_select_rows sample_table). Defined.
